(** * goCertCenter: the request-shaping dispatcher of the CertCenter REST client

    A shallow embedding of [handler.go] (the dispatcher [do] and the
    operation functions built on it) and of the request side of [types.go],
    followed by the properties of the dispatcher.

    Conventions.
    - Go's [int] and [int64] are [Z]; the dispatcher only compares and prints
      them, it never computes with them.
    - [string] is [String.string], [[]byte] is [list byte].
    - A Go [error] is its message.
    - [interface{}] holding a pointer to a request struct is [requestObj]:
      one constructor per dynamic type, carrying [None] for a nil pointer of
      that type and [Some r] for a pointer to the struct [r].  The struct
      behind the pointer is shared with the caller; the model keeps it in the
      [request] field of the [apiRequest], so the final [apiRequest] shows the
      struct as the caller sees it after the call.
    - A panic (failed type assertion, nil dereference) is an [exit] of its
      own, distinct from returning an error. *)

From Stdlib Require Import ZArith String Ascii Strings.Byte List Bool Lia DecimalString DecimalZ.
Import ListNotations.
Local Open Scope string_scope.
Local Open Scope Z_scope.

Definition error := string.

(** fmt's [%d] verb on an integer. *)
Definition fmt_d (z : Z) : string := NilEmpty.string_of_int (Z.to_int z).

(* ===================================================================== *)
(** * types.go *)
(* ===================================================================== *)

(** [1 << iota] *)
Definition CC_PARAM_TYPE_QS : Z := Z.shiftl 1 0.
Definition CC_PARAM_TYPE_PATH : Z := Z.shiftl 1 1.
Definition CC_PARAM_TYPE_BODY : Z := Z.shiftl 1 2.

(** [time.Time], as far as a request carries it: an instant and a zone. *)
Record time_Time := { unixSec : Z; nanos : Z; zone : string }.

Module ProductDetailsRequest.
Record t := { ProductCode : string }.
End ProductDetailsRequest.

Module QuoteRequest.
Record t := { ProductCode : string; SubjectAltNameCount : Z;
                ValidityPeriod : Z; ServerCount : Z }.
End QuoteRequest.

Module ValidateCSRRequest.
Record t := { CSR : string }.
End ValidateCSRRequest.

Module UserAgreementRequest.
Record t := { ProductCode : string }.
End UserAgreementRequest.

Module ApproverListRequest.
Record t := { CommonName : string; ProductCode : string; DNSNames : string }.
End ApproverListRequest.

Module Approver.
Record t := { ApproverEmail : string; ApproverType : string }.
End Approver.

Module DomainApproverItem.
Record t := { Domain : string; Approvers : list Approver.t }.
End DomainApproverItem.

Module DomainApprovers.
Record t := { DomainApprover : list DomainApproverItem.t }.
End DomainApprovers.

Module OrderParameters.
Record t := {
    CSR : string;
    IsCompetitiveUpgrade : bool;
    IsRenewal : bool;
    PartnerOrderID : string;
    ProductCode : string;
    ServerCount : Z;
    SignatureHashAlgorithm : string;
    SubjectAltNameCount : Z;
    SubjectAltNames : list string;
    ValidityPeriod : Z;
    DVAuthMethod : string;
    DomainApprovers : option DomainApprovers.t;
    ApproverEmail : string }.
End OrderParameters.

Module OrganizationAddress.
Record t := { AddressLine1 : string; PostalCode : string; City : string;
                Region : string; Country : string; Phone : string;
                Fax : string }.
End OrganizationAddress.

Module OrganizationInfo.
Record t := { OrganizationName : string;
                OrganizationAddress : option OrganizationAddress.t }.
End OrganizationInfo.

Module Contact.
Record t := { Title : string; FirstName : string; LastName : string;
                OrganizationName : string;
                OrganizationAddress : option OrganizationAddress.t;
                Phone : string; Fax : string; Email : string }.
End Contact.

Module OrderRequest.
Record t := { OrganizationInfo : option OrganizationInfo.t;
                OrderParameters : option OrderParameters.t;
                AdminContact : option Contact.t;
                TechContact : option Contact.t }.
End OrderRequest.

Module PutApproverEmailRequest.
Record t := { CertCenterOrderID : Z; ApproverEmail : string }.
End PutApproverEmailRequest.

Module ResendApproverEmailRequest.
Record t := { CertCenterOrderID : Z }.
End ResendApproverEmailRequest.

Module GetOrdersRequest.
Record t := {
    Status : string;
    ProductType : string;
    CommonName : string;
    IncludeFulfillment : bool;
    IncludeOrderParameters : bool;
    IncludeBillingDetails : bool;
    IncludeContacts : bool;
    IncludeOrganizationInfos : bool;
    IncludeDCVStatus : bool }.
End GetOrdersRequest.

Module GetModifiedOrdersRequest.
Record t := {
    FromDate : time_Time;
    ToDate : time_Time;
    IncludeFulfillment : bool;
    IncludeOrderParameters : bool;
    IncludeBillingDetails : bool;
    IncludeContacts : bool;
    IncludeOrganizationInfos : bool;
    IncludeDCVStatus : bool }.
End GetModifiedOrdersRequest.

Module GetOrderRequest.
Record t := {
    CertCenterOrderID : Z;
    IncludeFulfillment : bool;
    IncludeOrderParameters : bool;
    IncludeBillingDetails : bool;
    IncludeContacts : bool;
    IncludeOrganizationInfos : bool;
    IncludeDCVStatus : bool }.
End GetOrderRequest.

Module DeleteOrderRequest.
Record t := { CertCenterOrderID : Z }.
End DeleteOrderRequest.

Module ReissueOrderParameters.
Record t := { CSR : string; DVAuthMethod : string;
                SignatureHashAlgorithm : string;
                DomainApprovers : option DomainApprovers.t }.
End ReissueOrderParameters.

Module ReissueRequest.
Record t := { CertCenterOrderID : Z;
                OrderParameters : ReissueOrderParameters.t;
                ReissueEmail : string }.
End ReissueRequest.

Module RevokeRequest.
Record t := { CertCenterOrderID : Z; RevokeReason : string;
                Certificate : string }.
End RevokeRequest.

Module BaseDomainRequest.
Record t := { FQDN : string }.
End BaseDomainRequest.

Module ValidateNameRequest.
Record t := { CommonName : string; GeneratePrivateKey : bool }.
End ValidateNameRequest.

Module DNSDataRequest.
Record t := { ProductCode : string; CSR : string }.
End DNSDataRequest.

Module FileDataRequest.
Record t := { ProductCode : string; CSR : string }.
End FileDataRequest.

Module VulnerabilityAssessmentRequest.
Record t := { CertCenterOrderID : Z; ServiceStatus : string;
                EmailNotificationLevel : string }.
End VulnerabilityAssessmentRequest.

Module VulnerabilityAssessmentRescanRequest.
Record t := { CertCenterOrderID : Z }.
End VulnerabilityAssessmentRescanRequest.

Module UserData.
Record t := {
    UsernameOrUserId : string;
    FullName : string;
    Email : string;
    Username : string;
    Password : string;
    Roles : list string;
    Mobile : string;
    Timezone : string;
    Locale : string;
    SpecialProductAvailability : bool;
    Scope : string;
    Active : bool;
    TwoFactorEnabled : bool;
    InsertDate : Z;
    LastUpdateDate : Z;
    LastPasswordChangeDate : Z }.

  (** The assignment [u.UsernameOrUserId = v]. *)
Definition set_UsernameOrUserId (v : string) (u : t) : t :=
    {| UsernameOrUserId := v;
       FullName := FullName u;
       Email := Email u;
       Username := Username u;
       Password := Password u;
       Roles := Roles u;
       Mobile := Mobile u;
       Timezone := Timezone u;
       Locale := Locale u;
       SpecialProductAvailability := SpecialProductAvailability u;
       Scope := Scope u;
       Active := Active u;
       TwoFactorEnabled := TwoFactorEnabled u;
       InsertDate := InsertDate u;
       LastUpdateDate := LastUpdateDate u;
       LastPasswordChangeDate := LastPasswordChangeDate u |}.
End UserData.

(** [CreateUserRequest], [UpdateUserRequest] and [GetUserRequest] each embed
    [UserData] and nothing else. *)
Module CreateUserRequest.
Record t := { UserData : UserData.t }.
End CreateUserRequest.

Module UpdateUserRequest.
Record t := { UserData : UserData.t }.
End UpdateUserRequest.

Module GetUserRequest.
Record t := { UserData : UserData.t }.
End GetUserRequest.

Module DeleteUserRequest.
Record t := { UsernameOrUserId : string }.
End DeleteUserRequest.

Module KeyValueStoreRequest.
Record t := { Key : string; Value : string }.
End KeyValueStoreRequest.

Module CreateVoucherRequest.
Record t := { OrderParameters : OrderParameters.t }.
End CreateVoucherRequest.

Module RedeemVoucherRequest.
Record t := { VoucherCode : string;
                OrganizationInfo : option OrganizationInfo.t;
                OrderParameters : option OrderParameters.t;
                AdminContact : option Contact.t;
                TechContact : option Contact.t }.
End RedeemVoucherRequest.

Module GetVoucherRequest.
Record t := { VoucherCode : string }.
End GetVoucherRequest.

Module DeleteVoucherRequest.
Record t := { VoucherCode : string }.
End DeleteVoucherRequest.

(** What the [request interface{}] field of an [apiRequest] can hold: nothing
    ([ReqNil], the nil interface), or a pointer to one of the request structs
    of types.go. *)
Inductive requestObj :=
| ReqNil
| ReqProductDetails (p : option ProductDetailsRequest.t)
| ReqQuote (p : option QuoteRequest.t)
| ReqValidateCSR (p : option ValidateCSRRequest.t)
| ReqUserAgreement (p : option UserAgreementRequest.t)
| ReqApproverList (p : option ApproverListRequest.t)
| ReqOrder (p : option OrderRequest.t)
| ReqPutApproverEmail (p : option PutApproverEmailRequest.t)
| ReqResendApproverEmail (p : option ResendApproverEmailRequest.t)
| ReqGetOrders (p : option GetOrdersRequest.t)
| ReqGetModifiedOrders (p : option GetModifiedOrdersRequest.t)
| ReqGetOrder (p : option GetOrderRequest.t)
| ReqDeleteOrder (p : option DeleteOrderRequest.t)
| ReqReissue (p : option ReissueRequest.t)
| ReqRevoke (p : option RevokeRequest.t)
| ReqBaseDomain (p : option BaseDomainRequest.t)
| ReqValidateName (p : option ValidateNameRequest.t)
| ReqDNSData (p : option DNSDataRequest.t)
| ReqFileData (p : option FileDataRequest.t)
| ReqVulnerabilityAssessment (p : option VulnerabilityAssessmentRequest.t)
| ReqVulnerabilityAssessmentRescan
    (p : option VulnerabilityAssessmentRescanRequest.t)
| ReqCreateUser (p : option CreateUserRequest.t)
| ReqUpdateUser (p : option UpdateUserRequest.t)
| ReqGetUser (p : option GetUserRequest.t)
| ReqDeleteUser (p : option DeleteUserRequest.t)
| ReqKeyValueStore (p : option KeyValueStoreRequest.t)
| ReqCreateVoucher (p : option CreateVoucherRequest.t)
| ReqRedeemVoucher (p : option RedeemVoucherRequest.t)
| ReqGetVoucher (p : option GetVoucherRequest.t)
| ReqDeleteVoucher (p : option DeleteVoucherRequest.t).

(** The result structs the operation functions allocate.  The dispatcher
    never looks inside one: it only hands it to [json.Unmarshal]. *)
Inductive resultType :=
| ProfileResult | LimitResult | ProductsResult | ProductDetailsResult
| QuoteResult | ValidateCSRResult | UserAgreementResult | ApproverListResult
| OrderResult | PutApproverEmailResult | ResendApproverEmailResult
| GetOrdersResult | GetModifiedOrdersResult | GetOrderResult
| DeleteOrderResult | ReissueResult | RevokeResult | ValidateNameResult
| DNSDataResult | FileDataResult | VulnerabilityAssessmentResult
| VulnerabilityAssessmentRescanResult.

(** The [result interface{}] field: which struct it points to ([None] for
    the nil interface) and the bytes the struct was filled from by
    [json.Unmarshal] ([None]: still the zero value). *)
Record resultObj := { rtype : option resultType; filled_from : option (list byte) }.

Definition new (t : resultType) : resultObj :=
  {| rtype := Some t; filled_from := None |}.

Definition resultType_eq_dec (a b : resultType) : {a = b} + {a <> b}.
Proof. decide equality. Defined.

(** The type assertion [req.result.( *T )] that ends every operation
    function: it holds when the interface still holds a pointer to the
    struct of type [t]. *)
Definition points_to (t : resultType) (o : resultObj) : bool :=
  match rtype o with
  | Some t' => if resultType_eq_dec t' t then true else false
  | None => false
  end.

(** The TLS settings of the [http.Client] that [do] builds. *)
Record http_Client := { PreferServerCipherSuites : bool; MinVersion : Z }.

Definition tls_VersionTLS12 : Z := 771. (* 0x0303 *)

(** [type apiRequest struct] *)
Record apiRequest := {
  method : string;
  httpMethod : string;
  url : string;
  result : resultObj;
  request : requestObj;
  client : option http_Client;
  statusCode : Z }.

(** [new(apiRequest)] *)
Definition new_apiRequest : apiRequest :=
  {| method := EmptyString; httpMethod := EmptyString; url := EmptyString;
     result := {| rtype := None; filled_from := None |};
     request := ReqNil; client := None; statusCode := 0 |}.

(* ===================================================================== *)
(** * What the dispatcher calls: net/http, encoding/json, fmt, package query *)
(* ===================================================================== *)

Module http_Request.
(** What [http.NewRequest] is given, and the headers set afterwards. *)
Record t := { Method : string; URL : string; Body : option string;
              Header : list (string * string) }.
End http_Request.

Module http_Body.
(** A response body as [ioutil.ReadAll] finds it: the bytes it delivers and
    the error, if any, that ends the read. *)
Record t := { content : list byte; read_error : option error }.
End http_Body.

Module http_Response.
(** [ContentLength] is the declared length; net/http sets it to [-1] when
    the length is unknown (chunked transfer, no Content-Length header). *)
Record t := { StatusCode : Z; ContentLength : Z; Body : http_Body.t }.
End http_Response.

(** [url.Values] *)
Definition url_Values := list (string * list string).

(** The package variable [Bearer] and the library functions [do] calls.
    None of them is defined in handler.go or types.go; the dispatcher is
    verified for every behaviour they can have.
    - [query_Values], [json_Marshal]: the value, or the error returned.
    - [json_Unmarshal data res]: the error returned, if any, when [data] is
      decoded into [res].
    - [json_Unmarshal_into data res]: what [json.Unmarshal(data, &res)]
      leaves in the interface [res]: the struct filled from [data], the
      interface as it was (a syntax error touches nothing), or the nil
      interface (the JSON value null sets an interface to nil).
    - [http_NewRequest m u b]: the error, if any, with which
      [http.NewRequest] rejects method [m] and URL [u].
    - [client_Do]: the pair [(response, err)] as Go returns it; a failed
      round trip returns a nil response and a non-nil error. *)
Class Runtime := {
  Bearer : string;
  query_Values : requestObj -> url_Values + error;
  Values_Encode : url_Values -> string;
  json_Marshal : requestObj -> list byte + error;
  json_Unmarshal : list byte -> resultObj -> option error;
  json_Unmarshal_into : list byte -> resultObj -> resultObj;
  http_NewRequest : string -> string -> option string -> option error;
  client_Do : http_Client -> http_Request.t
              -> option http_Response.t * option error }.

(** The calls [do] makes, in the order it makes them. *)
Inductive event :=
| CallQueryValues (r : requestObj)
| CallJsonMarshal (r : requestObj)
| CallPrintln (s : string)
| CallNewRequest (m u : string) (body : option string)
| CallClientDo (r : http_Request.t)
| CallReadAll
| CallJsonUnmarshal (data : list byte)
| CallBodyClose.

(* ===================================================================== *)
(** * The dispatcher's control flow: state, early return, panic *)
(* ===================================================================== *)

Inductive panic := TypeAssertion | NilDereference.

(** How a call of [do] ends: [return err], or a panic. *)
Inductive exit := Return (err : option error) | Panic (p : panic).

(** The receiver [req] and the calls made so far. *)
Record machine := { req : apiRequest; log : list event }.

Definition M (A : Type) : Type := machine -> (A + exit) * machine.

(** What a caller can observe of a call: how it ended, the receiver
    afterwards, and the library calls made, in order. *)
Record outcome := { ended : exit; receiver : apiRequest; calls : list event }.

Definition ret {A} (a : A) : M A := fun m => (inl a, m).

Definition bind {A B} (c : M A) (k : A -> M B) : M B :=
  fun m => match c m with
           | (inl a, m') => k a m'
           | (inr e, m') => (inr e, m')
           end.

Notation "x <- c ;; k" := (bind c (fun x => k))
  (at level 61, c at next level, right associativity).
Notation "c ;; k" := (bind c (fun _ => k))
  (at level 61, right associativity).

Definition return_ {A} (err : option error) : M A :=
  fun m => (inr (Return err), m).

Definition panic_ {A} (p : panic) : M A := fun m => (inr (Panic p), m).

Definition emit (e : event) : M unit :=
  fun m => (inl tt, {| req := req m; log := log m ++ [e] |}).

Definition get {A} (f : apiRequest -> A) : M A := fun m => (inl (f (req m)), m).

Definition modify (f : apiRequest -> apiRequest) : M unit :=
  fun m => (inl tt, {| req := f (req m); log := log m |}).

(** A deferred call runs when the function exits, whichever way it exits. *)
Definition defer {A} (e : event) (body : M A) : M A :=
  fun m => let (r, m') := body m in
           (r, {| req := req m'; log := log m' ++ [e] |}).

Definition set_method (v : string) (r : apiRequest) : apiRequest :=
  {| method := v; httpMethod := httpMethod r; url := url r;
     result := result r; request := request r; client := client r;
     statusCode := statusCode r |}.

Definition set_httpMethod (v : string) (r : apiRequest) : apiRequest :=
  {| method := method r; httpMethod := v; url := url r;
     result := result r; request := request r; client := client r;
     statusCode := statusCode r |}.

Definition set_url (v : string) (r : apiRequest) : apiRequest :=
  {| method := method r; httpMethod := httpMethod r; url := v;
     result := result r; request := request r; client := client r;
     statusCode := statusCode r |}.

Definition set_result (v : resultObj) (r : apiRequest) : apiRequest :=
  {| method := method r; httpMethod := httpMethod r; url := url r;
     result := v; request := request r; client := client r;
     statusCode := statusCode r |}.

Definition set_request (v : requestObj) (r : apiRequest) : apiRequest :=
  {| method := method r; httpMethod := httpMethod r; url := url r;
     result := result r; request := v; client := client r;
     statusCode := statusCode r |}.

Definition set_client (v : option http_Client) (r : apiRequest) : apiRequest :=
  {| method := method r; httpMethod := httpMethod r; url := url r;
     result := result r; request := request r; client := v;
     statusCode := statusCode r |}.

Definition set_statusCode (v : Z) (r : apiRequest) : apiRequest :=
  {| method := method r; httpMethod := httpMethod r; url := url r;
     result := result r; request := request r; client := client r;
     statusCode := v |}.

(* ===================================================================== *)
(** * handler.go: the dispatcher *)
(* ===================================================================== *)

(** The type assertions [req.request.( *T )] of [do], each followed by the
    field access that dereferences the pointer. *)
Definition the_ResendApproverEmailRequest : M ResendApproverEmailRequest.t :=
  r <- get request ;;
  match r with
  | ReqResendApproverEmail (Some x) => ret x
  | ReqResendApproverEmail None => panic_ NilDereference
  | _ => panic_ TypeAssertion
  end.

Definition the_DeleteOrderRequest : M DeleteOrderRequest.t :=
  r <- get request ;;
  match r with
  | ReqDeleteOrder (Some x) => ret x
  | ReqDeleteOrder None => panic_ NilDereference
  | _ => panic_ TypeAssertion
  end.

Definition the_VulnerabilityAssessmentRequest
  : M VulnerabilityAssessmentRequest.t :=
  r <- get request ;;
  match r with
  | ReqVulnerabilityAssessment (Some x) => ret x
  | ReqVulnerabilityAssessment None => panic_ NilDereference
  | _ => panic_ TypeAssertion
  end.

Definition the_GetUserRequest : M GetUserRequest.t :=
  r <- get request ;;
  match r with
  | ReqGetUser (Some x) => ret x
  | ReqGetUser None => panic_ NilDereference
  | _ => panic_ TypeAssertion
  end.

Definition the_DeleteUserRequest : M DeleteUserRequest.t :=
  r <- get request ;;
  match r with
  | ReqDeleteUser (Some x) => ret x
  | ReqDeleteUser None => panic_ NilDereference
  | _ => panic_ TypeAssertion
  end.

Definition the_PutApproverEmailRequest : M PutApproverEmailRequest.t :=
  r <- get request ;;
  match r with
  | ReqPutApproverEmail (Some x) => ret x
  | ReqPutApproverEmail None => panic_ NilDereference
  | _ => panic_ TypeAssertion
  end.

Definition the_GetOrderRequest : M GetOrderRequest.t :=
  r <- get request ;;
  match r with
  | ReqGetOrder (Some x) => ret x
  | ReqGetOrder None => panic_ NilDereference
  | _ => panic_ TypeAssertion
  end.

Definition the_RevokeRequest : M RevokeRequest.t :=
  r <- get request ;;
  match r with
  | ReqRevoke (Some x) => ret x
  | ReqRevoke None => panic_ NilDereference
  | _ => panic_ TypeAssertion
  end.

Definition the_UpdateUserRequest : M UpdateUserRequest.t :=
  r <- get request ;;
  match r with
  | ReqUpdateUser (Some x) => ret x
  | ReqUpdateUser None => panic_ NilDereference
  | _ => panic_ TypeAssertion
  end.

Definition rawURL : string := "https://api.certcenter.com/rest/v1/".

Definition wired_length : error :=
  "CertCenter API: Returned content with wired length".

Definition status_error (code : Z) : error :=
  "CertCenter API: Returned with Status " ++ fmt_d code.

Definition authorization_failed : error :=
  "CertCenter API: Autorization failed. Used bearer token is invalid or does not have the proper rights".

Section Dispatcher.
Context {R : Runtime}.

(** [v, err := query.Values(req.request); if err != nil { return err }] *)
Definition values_of_request : M url_Values :=
  r <- get request ;;
  emit (CallQueryValues r) ;;
  match query_Values r with
  | inr err => return_ (Some err)
  | inl v => ret v
  end.

(** [d, err := json.Marshal(req.request); if err != nil { return err };
    postData = strings.NewReader(string(d))] *)
Definition marshal_request : M (option string) :=
  r <- get request ;;
  emit (CallJsonMarshal r) ;;
  match json_Marshal r with
  | inr err => return_ (Some err)
  | inl d => ret (Some (string_of_list_byte d))
  end.

(** Lines 32-99: the switch on the first [ParamType].  The value is
    [postData]. *)
Definition shape (apiMethod : string) (ParamType : list Z) : M (option string) :=
  match ParamType with
  | [] => ret None
  | paramType :: _ =>
    if (paramType =? CC_PARAM_TYPE_QS)%Z then
      v <- values_of_request ;;
      u <- get url ;;
      modify (set_url (u ++ "?" ++ Values_Encode v)) ;;
      ret None
    else if (paramType =? CC_PARAM_TYPE_BODY)%Z then
      modify (set_httpMethod "POST") ;;
      marshal_request
    else if (paramType =? CC_PARAM_TYPE_PATH)%Z then
      (if (apiMethod =? "ApproverEmail")%string then
         modify (set_httpMethod "POST") ;;
         u <- get url ;;
         x <- the_ResendApproverEmailRequest ;;
         modify (set_url
           (u ++ "/" ++ fmt_d (ResendApproverEmailRequest.CertCenterOrderID x)))
       else if (apiMethod =? "Order")%string then
         modify (set_httpMethod "DELETE") ;;
         u <- get url ;;
         x <- the_DeleteOrderRequest ;;
         modify (set_url
           (u ++ "/" ++ fmt_d (DeleteOrderRequest.CertCenterOrderID x)))
       else if (apiMethod =? "VulnerabilityAssessment")%string then
         u <- get url ;;
         x <- the_VulnerabilityAssessmentRequest ;;
         modify (set_url
           (u ++ "/"
              ++ fmt_d (VulnerabilityAssessmentRequest.CertCenterOrderID x)))
       else if (apiMethod =? "User")%string then
         u <- get url ;;
         x <- the_GetUserRequest ;;
         modify (set_url
           (u ++ "/" ++ UserData.UsernameOrUserId (GetUserRequest.UserData x)))
       else if (apiMethod =? "DeleteUser")%string then
         (* apiMethod = "User": the local is not read again *)
         modify (set_httpMethod "DELETE") ;;
         x <- the_DeleteUserRequest ;;
         emit (CallPrintln (DeleteUserRequest.UsernameOrUserId x)) ;;
         y <- the_DeleteUserRequest ;;
         modify (set_url
           (rawURL ++ "User/" ++ DeleteUserRequest.UsernameOrUserId y))
       else ret tt) ;;
      ret None
    else if (paramType =? Z.lor CC_PARAM_TYPE_QS CC_PARAM_TYPE_PATH)%Z then
      (if (apiMethod =? "ApproverEmail")%string then
         modify (set_httpMethod "PUT") ;;
         u <- get url ;;
         x <- the_PutApproverEmailRequest ;;
         y <- the_PutApproverEmailRequest ;;
         modify (set_url
           (u ++ "/" ++ fmt_d (PutApproverEmailRequest.CertCenterOrderID x)
              ++ "?ApproverEmail=" ++ PutApproverEmailRequest.ApproverEmail y))
       else if (apiMethod =? "Order")%string then
         v <- values_of_request ;;
         x <- the_GetOrderRequest ;;
         u <- get url ;;
         modify (set_url
           (u ++ "/" ++ fmt_d (GetOrderRequest.CertCenterOrderID x) ++ "?")) ;;
         let x := Values_Encode v in
         u <- get url ;;
         modify (set_url (u ++ x))
       else ret tt) ;;
      ret None
    else if (paramType =? Z.lor CC_PARAM_TYPE_BODY CC_PARAM_TYPE_PATH)%Z then
      (if (apiMethod =? "Revoke")%string then
         modify (set_httpMethod "DELETE") ;;
         u <- get url ;;
         x <- the_RevokeRequest ;;
         modify (set_url (u ++ "/" ++ fmt_d (RevokeRequest.CertCenterOrderID x)))
       else if (apiMethod =? "User")%string then
         modify (set_httpMethod "POST") ;;
         u <- get url ;;
         x <- the_UpdateUserRequest ;;
         modify (set_url
           (u ++ "/"
              ++ UserData.UsernameOrUserId (UpdateUserRequest.UserData x))) ;;
         y <- the_UpdateUserRequest ;;
         modify (set_request (ReqUpdateUser (Some
           {| UpdateUserRequest.UserData :=
                UserData.set_UsernameOrUserId EmptyString
                  (UpdateUserRequest.UserData y) |})))
       else ret tt) ;;
      marshal_request
    else ret None
  end.

(** Lines 121-137: the status switch and the decoding of the body. *)
Definition decode (response : http_Response.t) (data : list byte) : M unit :=
  let code := http_Response.StatusCode response in
  modify (set_statusCode code) ;;
  (if negb (code =? 200)%Z then
     if (code =? 401)%Z then return_ (Some authorization_failed)
     else if (code =? 417)%Z then ret tt
     else if (code =? 406)%Z then ret tt
     else return_ (Some (status_error code))
   else ret tt) ;;
  res <- get result ;;
  emit (CallJsonUnmarshal data) ;;
  modify (set_result (json_Unmarshal_into data res)) ;;
  match json_Unmarshal data res with
  | Some err => return_ (Some err)
  | None => return_ None
  end.

(** Lines 110-119: with a response in hand, defer the close, check the
    declared length, read the body. *)
Definition receive (response : http_Response.t) : M unit :=
  defer CallBodyClose
    (if (http_Response.ContentLength response >? Z.shiftl 1 24)%Z
        || (http_Response.ContentLength response =? 0)%Z
     then return_ (Some wired_length)
     else
       emit CallReadAll ;;
       match http_Body.read_error (http_Response.Body response) with
       | Some err => return_ (Some err)
       | None =>
         decode response (http_Body.content (http_Response.Body response))
       end).

(** Lines 101-110: build the request and send it.  The error of
    [client.Do] is assigned and not looked at; [defer response.Body.Close()]
    evaluates [response.Body], which panics on a nil response. *)
Definition transact (postData : option string) : M unit :=
  m <- get httpMethod ;;
  u <- get url ;;
  emit (CallNewRequest m u postData) ;;
  match http_NewRequest m u postData with
  | Some err => return_ (Some err)
  | None =>
    let request :=
      {| http_Request.Method := m;
         http_Request.URL := u;
         http_Request.Body := postData;
         http_Request.Header :=
           [("Authorization", "Bearer " ++ Bearer);
            ("Content-Type", "application/json; charset=utf8")] |} in
    c <- get client ;;
    match c with
    | None => panic_ NilDereference
    | Some c =>
      emit (CallClientDo request) ;;
      match fst (client_Do c request) with
      | None => panic_ NilDereference
      | Some response => receive response
      end
    end
  end.

(** [func (req *apiRequest) do(apiMethod string, ParamType ...int) error] *)
Definition do (apiMethod : string) (ParamType : list Z) : M unit :=
  modify (set_httpMethod "GET") ;;
  modify (set_method apiMethod) ;;
  m <- get method ;;
  modify (set_url (rawURL ++ m)) ;;
  modify (set_client (Some {| PreferServerCipherSuites := true;
                              MinVersion := tls_VersionTLS12 |})) ;;
  postData <- shape apiMethod ParamType ;;
  transact postData.

(** Running [req.do(apiMethod, ParamType...)] on the receiver [r]. *)
Definition run_do (r : apiRequest) (apiMethod : string) (ParamType : list Z)
  : outcome :=
  match do apiMethod ParamType {| req := r; log := [] |} with
  | (inr e, m) => {| ended := e; receiver := req m; calls := log m |}
  | (inl _, m) => {| ended := Return None; receiver := req m; calls := log m |}
  end.

#[global] Arguments run_do : simpl never.

End Dispatcher.

(* ===================================================================== *)
(** * handler.go: the operation functions *)
(* ===================================================================== *)

(** [func checkErr(err error)]: print the error, if there is one. *)
Definition checkErr (err : option error) (l : list event) : list event :=
  match err with
  | Some e => l ++ [CallPrintln e]
  | None => l
  end.

Section Operations.
Context {R : Runtime}.

(** The body every operation function shares:
    [req := new(apiRequest); req.result = new(T); req.request = request;
     err := req.do(...); checkErr(err); return req.result.( *T ), err].
    The [result] of the [receiver] is the first return value, the error of
    [ended] the second.  The assertion in the return statement panics when
    [req.result] no longer holds a pointer to the struct allocated. *)
Definition call (res : resultType) (rq : requestObj)
    (apiMethod : string) (ParamType : list Z) : outcome :=
  let r := set_request rq (set_result (new res) new_apiRequest) in
  let o := run_do r apiMethod ParamType in
  match ended o with
  | Return err =>
    {| ended := if points_to res (result (receiver o)) then Return err
                else Panic TypeAssertion;
       receiver := receiver o;
       calls := checkErr err (calls o) |}
  | Panic p => o
  end.

Definition Profile := call ProfileResult ReqNil "Profile" [].

Definition Limit := call LimitResult ReqNil "Limit" [].

Definition Products := call ProductsResult ReqNil "Products" [].

Definition ProductDetails (ProductCode : string) :=
  call ProductDetailsResult
    (ReqProductDetails
       (Some {| ProductDetailsRequest.ProductCode := ProductCode |}))
    "ProductDetails" [CC_PARAM_TYPE_QS].

Definition Quote (request : option QuoteRequest.t) :=
  call QuoteResult (ReqQuote request) "Quote" [CC_PARAM_TYPE_QS].

Definition ValidateCSR (request : option ValidateCSRRequest.t) :=
  call ValidateCSRResult (ReqValidateCSR request)
    "ValidateCSR" [CC_PARAM_TYPE_BODY].

Definition UserAgreement (ProductCode : string) :=
  call UserAgreementResult
    (ReqUserAgreement
       (Some {| UserAgreementRequest.ProductCode := ProductCode |}))
    "UserAgreement" [CC_PARAM_TYPE_QS].

Definition ApproverList (request : option ApproverListRequest.t) :=
  call ApproverListResult (ReqApproverList request)
    "ApproverList" [CC_PARAM_TYPE_QS].

Definition Order (request : option OrderRequest.t) :=
  call OrderResult (ReqOrder request) "Order" [CC_PARAM_TYPE_BODY].

Definition PutApproverEmail (request : option PutApproverEmailRequest.t) :=
  call PutApproverEmailResult (ReqPutApproverEmail request)
    "ApproverEmail" [Z.lor CC_PARAM_TYPE_QS CC_PARAM_TYPE_PATH].

Definition ResendApproverEmail (request : option ResendApproverEmailRequest.t) :=
  call ResendApproverEmailResult (ReqResendApproverEmail request)
    "ApproverEmail" [CC_PARAM_TYPE_PATH].

Definition GetOrders (request : option GetOrdersRequest.t) :=
  call GetOrdersResult (ReqGetOrders request) "Orders" [CC_PARAM_TYPE_QS].

Definition GetModifiedOrders (request : option GetModifiedOrdersRequest.t) :=
  call GetModifiedOrdersResult (ReqGetModifiedOrders request)
    "GetModifiedOrders" [CC_PARAM_TYPE_QS].

Definition GetOrder (request : option GetOrderRequest.t) :=
  call GetOrderResult (ReqGetOrder request)
    "Order" [Z.lor CC_PARAM_TYPE_QS CC_PARAM_TYPE_PATH].

Definition DeleteOrder (request : option DeleteOrderRequest.t) :=
  call DeleteOrderResult (ReqDeleteOrder request) "Order" [CC_PARAM_TYPE_PATH].

Definition Reissue (request : option ReissueRequest.t) :=
  call ReissueResult (ReqReissue request) "Reissue" [CC_PARAM_TYPE_BODY].

Definition Revoke (request : option RevokeRequest.t) :=
  call RevokeResult (ReqRevoke request)
    "Revoke" [Z.lor CC_PARAM_TYPE_BODY CC_PARAM_TYPE_PATH].

Definition ValidateName (request : option ValidateNameRequest.t) :=
  call ValidateNameResult (ReqValidateName request)
    "ValidateName" [CC_PARAM_TYPE_BODY].

Definition DNSData (request : option DNSDataRequest.t) :=
  call DNSDataResult (ReqDNSData request) "DNSData" [CC_PARAM_TYPE_BODY].

Definition FileData (request : option FileDataRequest.t) :=
  call FileDataResult (ReqFileData request) "FileData" [CC_PARAM_TYPE_BODY].

Definition VulnerabilityAssessment
    (request : option VulnerabilityAssessmentRequest.t) :=
  call VulnerabilityAssessmentResult (ReqVulnerabilityAssessment request)
    "VulnerabilityAssessment" [CC_PARAM_TYPE_BODY].

Definition VulnerabilityAssessmentRescan
    (request : option VulnerabilityAssessmentRescanRequest.t) :=
  call VulnerabilityAssessmentRescanResult
    (ReqVulnerabilityAssessmentRescan request)
    "VulnerabilityAssessment" [CC_PARAM_TYPE_PATH].

End Operations.

(* ===================================================================== *)
(** * Reading a run *)
(* ===================================================================== *)

(** The arguments of the first [http.NewRequest] of a run. *)
Fixpoint built (l : list event) : option (string * string * option string) :=
  match l with
  | [] => None
  | CallNewRequest m u b :: _ => Some (m, u, b)
  | _ :: l' => built l'
  end.

(** The request handed to [client.Do]. *)
Fixpoint sent (l : list event) : option http_Request.t :=
  match l with
  | [] => None
  | CallClientDo r :: _ => Some r
  | _ :: l' => sent l'
  end.

(** The object handed to [json.Marshal]. *)
Fixpoint marshalled (l : list event) : option requestObj :=
  match l with
  | [] => None
  | CallJsonMarshal r :: _ => Some r
  | _ :: l' => marshalled l'
  end.

Definition is_unmarshal (e : event) : bool :=
  match e with CallJsonUnmarshal _ => true | _ => false end.

(** Whether [json.Unmarshal] was called in a run: decoding was attempted. *)
Definition decoding_attempted (l : list event) : bool := existsb is_unmarshal l.

(** The client [do] builds at lines 23-30. *)
Definition the_client : http_Client :=
  {| PreferServerCipherSuites := true; MinVersion := tls_VersionTLS12 |}.

(** The response [client.Do] gave in a run, if the run got as far as
    sending and the round trip produced one. *)
Definition received {R : Runtime} (l : list event) : option http_Response.t :=
  match sent l with
  | Some r => fst (client_Do the_client r)
  | None => None
  end.

(** The headers [do] puts on every request. *)
Definition headers {R : Runtime} : list (string * string) :=
  [("Authorization", "Bearer " ++ Bearer);
   ("Content-Type", "application/json; charset=utf8")].

(* ===================================================================== *)
(** * Package query *)
(* ===================================================================== *)

Inductive field_value :=
| FString (s : string)
| FInt (z : Z)
| FBool (b : bool).

(** Whether a field holds something else than the zero value of its type. *)
Definition is_set (v : field_value) : bool :=
  match v with
  | FString s => negb (s =? EmptyString)%string
  | FInt z => negb (z =? 0)%Z
  | FBool b => b
  end.

(** Modelled from the spec: the query parameters that package query
    (query.Values, not under src/) builds from a [GetOrderRequest].  The
    spec's example fixes them: the order lookup "with a numeric order
    identifier and includeFulfillment=true produces
    GET /rest/v1/Order/<id>?includeFulfillment=true".  So the identifier,
    which goes into the path, is no parameter, and a flag is a parameter,
    under its [url] tag of types.go, when it is set.  The spec describes the
    encoding of no other request object ([None]). *)
Definition url_fields (r : requestObj) : option (list (string * field_value)) :=
  match r with
  | ReqGetOrder (Some x) =>
    Some (filter (fun kv => is_set (snd kv))
            [("includeFulfillment", FBool (GetOrderRequest.IncludeFulfillment x));
             ("includeOrderParameters",
              FBool (GetOrderRequest.IncludeOrderParameters x));
             ("includeBillingDetails",
              FBool (GetOrderRequest.IncludeBillingDetails x));
             ("includeContacts", FBool (GetOrderRequest.IncludeContacts x));
             ("includeOrganizationInfos",
              FBool (GetOrderRequest.IncludeOrganizationInfos x));
             ("includeDCVStatus", FBool (GetOrderRequest.IncludeDCVStatus x))])
  | _ => None
  end.

Definition field_text (v : field_value) : string :=
  match v with
  | FString s => s
  | FInt z => fmt_d z
  | FBool true => "true"
  | FBool false => "false"
  end.

(** Modelled from the spec: [query.Values], which is not under src/: one
    key per parameter above, with its value as text; an error for the
    request objects whose encoding the spec does not describe. *)
Definition spec_query_Values (r : requestObj) : url_Values + error :=
  match url_fields r with
  | Some fs => inl (map (fun kv => (fst kv, [field_text (snd kv)])) fs)
  | None => inr "query: no encoding described"
  end.

(** [url.QueryEscape]: letters, digits and [-_.~] stay, a space becomes [+],
    every other byte becomes [%XX]. *)
Definition unreserved (c : ascii) : bool :=
  let n := nat_of_ascii c in
  ((65 <=? n) && (n <=? 90) || (97 <=? n) && (n <=? 122)
   || (48 <=? n) && (n <=? 57)
   || (n =? 45) || (n =? 95) || (n =? 46) || (n =? 126))%nat.

Definition upperhex (n : nat) : ascii :=
  nth n (list_ascii_of_string "0123456789ABCDEF") "0"%char.

Fixpoint url_QueryEscape (s : string) : string :=
  match s with
  | EmptyString => EmptyString
  | String c s' =>
    if unreserved c then String c (url_QueryEscape s')
    else if (c =? " ")%char then String "+" (url_QueryEscape s')
    else
      let n := nat_of_ascii c in
      String "%" (String (upperhex (n / 16))
                    (String (upperhex (n mod 16)) (url_QueryEscape s')))
  end.

Fixpoint insert_by_key (kv : string * list string) (v : url_Values) : url_Values :=
  match v with
  | [] => [kv]
  | kv' :: v' =>
    if String.leb (fst kv) (fst kv') then kv :: v
    else kv' :: insert_by_key kv v'
  end.

Definition sort_by_key (v : url_Values) : url_Values :=
  fold_right insert_by_key [] v.

Definition join_amp (parts : list string) : string :=
  match parts with
  | [] => EmptyString
  | p :: ps => fold_left (fun acc q => acc ++ "&" ++ q) ps p
  end.

(** [url.Values.Encode]: [key=value] pairs, escaped, sorted by key, joined
    by [&]. *)
Definition url_Values_Encode (v : url_Values) : string :=
  join_amp
    (flat_map
       (fun kv => map (fun x => url_QueryEscape (fst kv) ++ "="
                                  ++ url_QueryEscape x) (snd kv))
       (sort_by_key v)).

(* ===================================================================== *)
(** * A server to run the dispatcher against *)
(* ===================================================================== *)

(** What encoding/json leaves in the interface for the bodies used below:
    nothing changes on empty input (a syntax error), the JSON value null
    sets the interface to nil, and anything else fills the struct. *)
Definition sample_Unmarshal_into (data : list byte) (res : resultObj)
  : resultObj :=
  match data with
  | [] => res
  | _ =>
    if (string_of_list_byte data =? "null")%string
    then {| rtype := None; filled_from := None |}
    else {| rtype := rtype res; filled_from := Some data |}
  end.

(** A runtime whose network answers every request with [answer], whose query
    package is the one above, whose [json.Marshal] yields [payload] and
    whose [json.Unmarshal] rejects empty input ("unexpected end of JSON
    input", as encoding/json does) and accepts the rest. *)
Definition answering (answer : option http_Response.t * option error)
    (payload : list byte) : Runtime :=
  {| Bearer := "token";
     query_Values := spec_query_Values;
     Values_Encode := url_Values_Encode;
     json_Marshal := fun _ => inl payload;
     json_Unmarshal := fun data _ =>
       match data with
       | [] => Some "unexpected end of JSON input"
       | _ => None
       end;
     json_Unmarshal_into := sample_Unmarshal_into;
     http_NewRequest := fun _ _ _ => None;
     client_Do := fun _ _ => answer |}.

Definition ok_body : list byte := list_byte_of_string "{}".

(* ===================================================================== *)
(** * Vocabulary of the proofs *)
(* ===================================================================== *)

(** The calls made while the request is shaped (lines 32-99). *)
Definition shaping (e : event) : bool :=
  match e with
  | CallQueryValues _ | CallJsonMarshal _ | CallPrintln _ => true
  | _ => false
  end.

(** What shaping leaves alone: the client, the result object and the status
    code; and it only adds shaping calls to the log. *)
Record stable (m m' : machine) : Prop := {
  stable_client : client (req m') = client (req m);
  stable_result : result (req m') = result (req m);
  stable_log : exists l, log m' = (log m ++ l)%list /\ forallb shaping l = true }.

Definition preserving {A} (c : M A) : Prop :=
  forall m r m', c m = (r, m') -> stable m m'.

(** The receiver as lines 18-30 leave it. *)
Definition prepared (r : apiRequest) (apiMethod : string) : machine :=
  {| req := set_client (Some the_client)
              (set_url (rawURL ++ apiMethod)
                 (set_method apiMethod (set_httpMethod "GET" r)));
     log := [] |}.

Definition out_of (x : (unit + exit) * machine) : outcome :=
  match x with
  | (inr e, m) => {| ended := e; receiver := req m; calls := log m |}
  | (inl _, m) => {| ended := Return None; receiver := req m; calls := log m |}
  end.

Definition add_call (e : event) (m : machine) : machine :=
  {| req := req m; log := log m ++ [e] |}.

(** A run issues the request [(m, u, b)]: [do] builds it with
    [http.NewRequest] and, unless [http.NewRequest] rejects it, hands it to
    [client.Do] with these fields and the two headers. *)
Definition issues {R : Runtime} (o : outcome) (m u : string)
    (b : option string) : Prop :=
  built (calls o) = Some (m, u, b) /\
  (http_NewRequest m u b = None ->
   sent (calls o) =
     Some {| http_Request.Method := m; http_Request.URL := u;
             http_Request.Body := b; http_Request.Header := headers |}).

(** The flag/name combinations that reach none of the special cases of the
    switch: a flag value that is no [case] of it, or the [PATH] case or the
    [QS|PATH] case with an operation name that the case does not list. *)
Definition falls_through (paramType : Z) (apiMethod : string) : bool :=
  negb ((paramType =? CC_PARAM_TYPE_QS)%Z
        || (paramType =? CC_PARAM_TYPE_BODY)%Z
        || (paramType =? CC_PARAM_TYPE_PATH)%Z
        || (paramType =? Z.lor CC_PARAM_TYPE_QS CC_PARAM_TYPE_PATH)%Z
        || (paramType =? Z.lor CC_PARAM_TYPE_BODY CC_PARAM_TYPE_PATH)%Z)
  || (paramType =? CC_PARAM_TYPE_PATH)%Z
     && negb ((apiMethod =? "ApproverEmail")%string
              || (apiMethod =? "Order")%string
              || (apiMethod =? "VulnerabilityAssessment")%string
              || (apiMethod =? "User")%string
              || (apiMethod =? "DeleteUser")%string)
  || (paramType =? Z.lor CC_PARAM_TYPE_QS CC_PARAM_TYPE_PATH)%Z
     && negb ((apiMethod =? "ApproverEmail")%string
              || (apiMethod =? "Order")%string).

(** ** Concrete requests, responses and runtimes *)


Definition revoke123 : RevokeRequest.t :=
  {| RevokeRequest.CertCenterOrderID := 123;
     RevokeRequest.RevokeReason := "superseded";
     RevokeRequest.Certificate := EmptyString |}.

Definition quote1 : QuoteRequest.t :=
  {| QuoteRequest.ProductCode := "AlwaysOnSSL.AlwaysOnSSL";
     QuoteRequest.SubjectAltNameCount := 0;
     QuoteRequest.ValidityPeriod := 180;
     QuoteRequest.ServerCount := 1 |}.

(** A response of status [code] whose declared length is [len] and whose
    body delivers [data]. *)
Definition response (code len : Z) (data : list byte) : http_Response.t :=
  {| http_Response.StatusCode := code;
     http_Response.ContentLength := len;
     http_Response.Body :=
       {| http_Body.content := data; http_Body.read_error := None |} |}.

(** A server that answers with [resp]. *)
Definition serving (resp : http_Response.t) : Runtime :=
  answering (Some resp, None) ok_body.

(** No network: the round trip fails. *)
Definition offline : Runtime :=
  answering (None, Some "dial tcp: connect: network is unreachable") ok_body.

(** The receiver as [Profile] sets it up. *)
Definition profile_request : apiRequest :=
  set_request ReqNil (set_result (new ProfileResult) new_apiRequest).

(** ** Vocabulary of the further properties *)

(** A run asks with a query string: when package query encodes [rq], the
    run issues a GET, without body, to [u] followed by [?] and the encoding;
    when the package fails, the run returns its error and builds no HTTP
    request. *)
Definition gets_with_query {R : Runtime} (o : outcome) (rq : requestObj)
    (u : string) : Prop :=
  match query_Values rq with
  | inl v => issues o "GET" (u ++ "?" ++ Values_Encode v) None
  | inr err => ended o = Return (Some err) /\ built (calls o) = None
  end.

(** A run posts JSON: when [json.Marshal] serializes [rq], the run issues a
    POST to [u] whose body is the serialization; when it fails, the run
    returns its error and builds no HTTP request. *)
Definition posts_json {R : Runtime} (o : outcome) (rq : requestObj)
    (u : string) : Prop :=
  match json_Marshal rq with
  | inl d => issues o "POST" u (Some (string_of_list_byte d))
  | inr err => ended o = Return (Some err) /\ built (calls o) = None
  end.

Definition is_close (e : event) : bool :=
  match e with CallBodyClose => true | _ => false end.

(** The methods [do] assigns to [req.httpMethod]. *)
Definition http_methods : list string := ["GET"; "POST"; "PUT"; "DELETE"].

(** [UpdateUserRequest] after [UsernameOrUserId = ""]. *)
Definition cleared (x : UpdateUserRequest.t) : UpdateUserRequest.t :=
  {| UpdateUserRequest.UserData :=
       UserData.set_UsernameOrUserId EmptyString (UpdateUserRequest.UserData x) |}.

(** A runtime like [serving resp] whose [json.Marshal] fails. *)
Definition unserializable (resp : http_Response.t) : Runtime :=
  {| Bearer := "token";
     query_Values := spec_query_Values;
     Values_Encode := url_Values_Encode;
     json_Marshal := fun _ => inr "json: unsupported value";
     json_Unmarshal := fun data _ =>
       match data with
       | [] => Some "unexpected end of JSON input"
       | _ => None
       end;
     json_Unmarshal_into := sample_Unmarshal_into;
     http_NewRequest := fun _ _ _ => None;
     client_Do := fun _ _ => (Some resp, None) |}.

(** A runtime like [serving resp] whose [http.NewRequest] rejects every
    request. *)
Definition rejecting (resp : http_Response.t) : Runtime :=
  {| Bearer := "token";
     query_Values := spec_query_Values;
     Values_Encode := url_Values_Encode;
     json_Marshal := fun _ => inl ok_body;
     json_Unmarshal := fun data _ =>
       match data with
       | [] => Some "unexpected end of JSON input"
       | _ => None
       end;
     json_Unmarshal_into := sample_Unmarshal_into;
     http_NewRequest := fun _ _ _ => Some "net/http: invalid request";
     client_Do := fun _ _ => (Some resp, None) |}.

(** A response whose body breaks off after [data] with [err]. *)
Definition broken_response (code len : Z) (data : list byte) (err : error)
  : http_Response.t :=
  {| http_Response.StatusCode := code;
     http_Response.ContentLength := len;
     http_Response.Body :=
       {| http_Body.content := data; http_Body.read_error := Some err |} |}.

(** A runtime in which every error of [client.Do] is replaced by nil. *)
Definition silenced (R : Runtime) : Runtime :=
  {| Bearer := @Bearer R;
     query_Values := @query_Values R;
     Values_Encode := @Values_Encode R;
     json_Marshal := @json_Marshal R;
     json_Unmarshal := @json_Unmarshal R;
     json_Unmarshal_into := @json_Unmarshal_into R;
     http_NewRequest := @http_NewRequest R;
     client_Do := fun c rq => (fst (@client_Do R c rq), None) |}.


(** The body that is the JSON value null. *)
Definition null_body : list byte := list_byte_of_string "null".

(* ===================================================================== *)
(** * Properties *)
(* ===================================================================== *)

Lemma stable_refl m : stable m m.
Proof.
  split; try reflexivity.
  exists []. now rewrite app_nil_r.
Qed.

Lemma stable_trans m1 m2 m3 : stable m1 m2 -> stable m2 m3 -> stable m1 m3.
Proof.
  intros [c1 r1 [l1 [e1 s1]]] [c2 r2 [l2 [e2 s2]]].
  split; try congruence.
  exists (l1 ++ l2)%list. split.
  - now rewrite e2, e1, app_assoc.
  - now rewrite forallb_app, s1, s2.
Qed.

Lemma preserving_ret {A} (a : A) : preserving (ret a).
Proof. intros m r m' H. inversion H. apply stable_refl. Qed.

Lemma preserving_return {A} err : preserving (@return_ A err).
Proof. intros m r m' H. inversion H. apply stable_refl. Qed.

Lemma preserving_panic {A} p : preserving (@panic_ A p).
Proof. intros m r m' H. inversion H. apply stable_refl. Qed.

Lemma preserving_get {A} (f : apiRequest -> A) : preserving (get f).
Proof. intros m r m' H. inversion H. apply stable_refl. Qed.

Lemma preserving_bind {A B} (c : M A) (k : A -> M B) :
  preserving c -> (forall a, preserving (k a)) -> preserving (bind c k).
Proof.
  intros Hc Hk m r m' H. unfold bind in H.
  destruct (c m) as [[a | e] m1] eqn:E.
  - eapply stable_trans; [eapply Hc, E | eapply Hk, H].
  - inversion H; subst. eapply Hc, E.
Qed.

Lemma preserving_emit e : shaping e = true -> preserving (emit e).
Proof.
  intros He m r m' H. inversion H. split; try reflexivity.
  exists [e]. cbn. now rewrite He.
Qed.

Lemma preserving_set_url u : preserving (modify (set_url u)).
Proof.
  intros m r m' H. inversion H. split; try reflexivity.
  exists []. now rewrite app_nil_r.
Qed.

Lemma preserving_set_httpMethod v : preserving (modify (set_httpMethod v)).
Proof.
  intros m r m' H. inversion H. split; try reflexivity.
  exists []. now rewrite app_nil_r.
Qed.

Lemma preserving_set_request v : preserving (modify (set_request v)).
Proof.
  intros m r m' H. inversion H. split; try reflexivity.
  exists []. now rewrite app_nil_r.
Qed.

Create HintDb shape.

#[local] Hint Resolve preserving_ret preserving_return preserving_panic
  preserving_get preserving_set_url preserving_set_httpMethod
  preserving_set_request : shape.

Ltac preserve :=
  repeat first
    [ apply preserving_bind; [ | intros ]
    | apply preserving_emit; reflexivity
    | solve [ auto with shape ]
    | match goal with
      | |- preserving (match ?x with _ => _ end) => destruct x
      | |- preserving (if ?b then _ else _) => destruct b
      end ].

Section ShapeFacts.
Context {R : Runtime}.

Lemma preserving_values_of_request : preserving values_of_request.
Proof. unfold values_of_request. preserve. Qed.

Lemma preserving_marshal_request : preserving marshal_request.
Proof. unfold marshal_request. preserve. Qed.

Lemma preserving_shape apiMethod ParamType :
  preserving (shape apiMethod ParamType).
Proof.
  pose proof preserving_values_of_request.
  pose proof preserving_marshal_request.
  unfold shape, the_ResendApproverEmailRequest, the_DeleteOrderRequest,
    the_VulnerabilityAssessmentRequest, the_GetUserRequest,
    the_DeleteUserRequest, the_PutApproverEmailRequest, the_GetOrderRequest,
    the_RevokeRequest, the_UpdateUserRequest.
  destruct ParamType as [ | paramType rest ]; [ preserve | ].
  repeat match goal with
         | |- preserving (if ?b then _ else _) => destruct b
         end; preserve; assumption.
Qed.

End ShapeFacts.

Lemma sent_shaping l l' :
  forallb shaping l = true -> sent (l ++ l') = sent l'.
Proof.
  induction l as [ | e l IH ]; cbn; [ reflexivity | ].
  intros H. apply andb_prop in H as [He Hl].
  destruct e; try discriminate; auto.
Qed.

Lemma built_shaping l l' :
  forallb shaping l = true -> built (l ++ l') = built l'.
Proof.
  induction l as [ | e l IH ]; cbn; [ reflexivity | ].
  intros H. apply andb_prop in H as [He Hl].
  destruct e; try discriminate; auto.
Qed.

Lemma attempted_shaping l l' :
  forallb shaping l = true ->
  decoding_attempted (l ++ l') = decoding_attempted l'.
Proof.
  unfold decoding_attempted.
  induction l as [ | e l IH ]; cbn; [ reflexivity | ].
  intros H. apply andb_prop in H as [He Hl].
  destruct e; try discriminate; auto.
Qed.

Lemma sent_shaping_only l : forallb shaping l = true -> sent l = None.
Proof.
  intros H. rewrite <- (app_nil_r l). now rewrite sent_shaping.
Qed.

Section Runs.
Context {R : Runtime}.

Lemma run_do_unfold r a pt :
  run_do r a pt = out_of (bind (shape a pt) transact (prepared r a)).
Proof. reflexivity. Qed.

Lemma shape_prepared r a pt sr m :
  shape a pt (prepared r a) = (sr, m) ->
  client (req m) = Some the_client /\ result (req m) = result r
  /\ forallb shaping (log m) = true.
Proof.
  intros H. apply preserving_shape in H as [Hc Hr [l [Hl Hs]]].
  cbn in Hc, Hr, Hl. subst. auto.
Qed.

Lemma run_do_shape_exit r a pt e m :
  shape a pt (prepared r a) = (inr e, m) ->
  run_do r a pt = {| ended := e; receiver := req m; calls := log m |}.
Proof. intros H. rewrite run_do_unfold. unfold bind. now rewrite H. Qed.

Lemma run_do_shape_ok r a pt postData m :
  shape a pt (prepared r a) = (inl postData, m) ->
  run_do r a pt = out_of (transact postData m).
Proof. intros H. rewrite run_do_unfold. unfold bind at 1. now rewrite H. Qed.

(** Lines 121-137 in closed form. *)
Lemma decode_eq response data m :
  decode response data m =
    let code := http_Response.StatusCode response in
    let m1 := {| req := set_statusCode code (req m); log := log m |} in
    if (code =? 200)%Z || (code =? 417)%Z || (code =? 406)%Z then
      (inr (Return (json_Unmarshal data (result (req m)))),
       {| req := set_result (json_Unmarshal_into data (result (req m)))
                   (set_statusCode code (req m));
          log := (log m ++ [CallJsonUnmarshal data])%list |})
    else if (code =? 401)%Z then (inr (Return (Some authorization_failed)), m1)
    else (inr (Return (Some (status_error code))), m1).
Proof.
  unfold decode, bind, modify, get, emit, return_, ret. cbn.
  destruct (http_Response.StatusCode response =? 200)%Z eqn:E200; cbn.
  - apply Z.eqb_eq in E200.
    destruct (json_Unmarshal data (result (req m))); reflexivity.
  - destruct (http_Response.StatusCode response =? 401)%Z eqn:E401; cbn.
    + apply Z.eqb_eq in E401. rewrite E401. reflexivity.
    + destruct (http_Response.StatusCode response =? 417)%Z; cbn.
      * destruct (json_Unmarshal data (result (req m))); reflexivity.
      * destruct (http_Response.StatusCode response =? 406)%Z; cbn.
        -- destruct (json_Unmarshal data (result (req m))); reflexivity.
        -- reflexivity.
Qed.

(** Lines 110-119 in closed form. *)
Lemma receive_eq response m :
  receive response m =
    if (http_Response.ContentLength response >? Z.shiftl 1 24)%Z
       || (http_Response.ContentLength response =? 0)%Z
    then (inr (Return (Some wired_length)), add_call CallBodyClose m)
    else
      match http_Body.read_error (http_Response.Body response) with
      | Some err =>
        (inr (Return (Some err)), add_call CallBodyClose (add_call CallReadAll m))
      | None =>
        let (x, m') :=
          decode response (http_Body.content (http_Response.Body response))
            (add_call CallReadAll m) in
        (x, add_call CallBodyClose m')
      end.
Proof.
  unfold receive, defer, bind, emit, return_.
  destruct (_ || _); [ reflexivity | ].
  destruct (http_Body.read_error _); reflexivity.
Qed.

(** Lines 101-110 in closed form. *)
Lemma transact_eq postData m :
  client (req m) = Some the_client ->
  transact postData m =
    let m1 :=
      add_call (CallNewRequest (httpMethod (req m)) (url (req m)) postData) m in
    match http_NewRequest (httpMethod (req m)) (url (req m)) postData with
    | Some err => (inr (Return (Some err)), m1)
    | None =>
      let rq := {| http_Request.Method := httpMethod (req m);
                   http_Request.URL := url (req m);
                   http_Request.Body := postData;
                   http_Request.Header := headers |} in
      let m2 := add_call (CallClientDo rq) m1 in
      match fst (client_Do the_client rq) with
      | None => (inr (Panic NilDereference), m2)
      | Some response => receive response m2
      end
    end.
Proof.
  destruct m as [r l]. cbn [req log]. intros Hc.
  unfold transact, bind, get, emit, return_, panic_, add_call, headers.
  cbn [req log].
  destruct (http_NewRequest _ _ _); [ reflexivity | ].
  cbn [req log]. rewrite Hc. cbv beta. cbn [req log].
  destruct (fst _); reflexivity.
Qed.

End Runs.

Lemma sent_app_some l l' r : sent l = Some r -> sent (l ++ l') = Some r.
Proof.
  induction l as [ | e l IH ]; cbn; [ discriminate | ].
  destruct e; auto.
Qed.

Lemma attempted_app l l' :
  decoding_attempted (l ++ l') = decoding_attempted l || decoding_attempted l'.
Proof. apply existsb_app. Qed.

Lemma attempted_shaping_only l :
  forallb shaping l = true -> decoding_attempted l = false.
Proof.
  intros H. rewrite <- (app_nil_r l). now rewrite attempted_shaping.
Qed.

Section Responses.
Context {R : Runtime}.

Lemma receive_extends response m :
  exists l, log (snd (receive response m)) = (log m ++ l)%list.
Proof.
  rewrite receive_eq.
  destruct (_ || _); [ now exists [CallBodyClose] | ].
  destruct (http_Body.read_error _).
  - exists [CallReadAll; CallBodyClose]. cbn. now rewrite <- app_assoc.
  - rewrite decode_eq. cbv zeta.
    destruct (_ || _); [ | destruct (_ =? 401)%Z ]; cbn;
      eexists; rewrite <- !app_assoc; reflexivity.
Qed.

Lemma calls_out_of x : calls (out_of x) = log (snd x).
Proof. destruct x as [[u | e] m]; reflexivity. Qed.

(** A run either stops before a response is there, or is [receive] applied
    to the response, entered with the result object untouched and no
    decoding attempted. *)
Lemma run_do_cases r a pt :
  (received (calls (run_do r a pt)) = None
   /\ forall rq, sent (calls (run_do r a pt)) = Some rq ->
                 ended (run_do r a pt) = Panic NilDereference)
  \/ exists response m,
       received (calls (run_do r a pt)) = Some response
       /\ run_do r a pt = out_of (receive response m)
       /\ result (req m) = result r
       /\ decoding_attempted (log m) = false.
Proof.
  destruct (shape a pt (prepared r a)) as [[postData | e] m] eqn:Hs;
    destruct (shape_prepared _ _ _ _ _ Hs) as (Hc & Hr & Hl).
  2:{ left. rewrite (run_do_shape_exit _ _ _ _ _ Hs). unfold received. cbn.
      rewrite (sent_shaping_only _ Hl). split; [ reflexivity | discriminate ]. }
  rewrite (run_do_shape_ok _ _ _ _ _ Hs), (transact_eq _ _ Hc). cbv zeta.
  destruct (http_NewRequest _ _ _).
  { left. unfold received. cbn.
    rewrite (sent_shaping _ _ Hl). cbn. split; [ reflexivity | discriminate ]. }
  set (rq := {| http_Request.Method := httpMethod (req m) |}).
  assert (Hsent : sent (log (add_call (CallClientDo rq)
            (add_call (CallNewRequest (httpMethod (req m)) (url (req m))
               postData) m))) = Some rq).
  { cbn. rewrite <- app_assoc. now rewrite (sent_shaping _ _ Hl). }
  destruct (fst (client_Do the_client rq)) as [ response | ] eqn:Hdo.
  - right. eexists response, _. repeat split.
    + unfold received. rewrite calls_out_of.
      destruct (receive_extends response
                  (add_call (CallClientDo rq)
                     (add_call (CallNewRequest (httpMethod (req m))
                        (url (req m)) postData) m))) as [l' Hl'].
      rewrite Hl', (sent_app_some _ _ _ Hsent). exact Hdo.
    + exact Hr.
    + cbn. rewrite !attempted_app, (attempted_shaping_only _ Hl). reflexivity.
  - left. unfold received. cbn [out_of calls ended].
    rewrite Hsent, Hdo. split; [ reflexivity | reflexivity ].
Qed.

End Responses.

(* ===================================================================== *)
(** * The round trip and the response (lines 109-137) *)
(* ===================================================================== *)

(** C1 (the code departs from the claim).  The claim: when [client.Do]
    fails, [do] returns that error as it is, without crashing.  The code:
    whenever a run reaches [client.Do] and the round trip yields no
    response, the run ends in a nil-dereference panic, whatever error
    [client.Do] returned; the error is never returned. *)
Theorem transport_failure_panics {R : Runtime} r a pt rq :
  sent (calls (run_do r a pt)) = Some rq ->
  fst (client_Do the_client rq) = None ->
  ended (run_do r a pt) = Panic NilDereference.
Proof.
  intros Hsent Hdo.
  destruct (run_do_cases r a pt) as [[_ H] | (response & m & Hrec & _)].
  - eauto.
  - unfold received in Hrec. rewrite Hsent, Hdo in Hrec. discriminate.
Qed.

Lemma transport_failure_panics_witness :
  ended (run_do (R := offline) profile_request "Profile" [])
  = Panic NilDereference.
Proof.
  eapply (transport_failure_panics (R := offline)); reflexivity.
Defined.

(** C2, as stated, fails: a response of unknown declared length
    ([ContentLength = -1]) with a body of zero length passes the length check,
    and the body is handed to [json.Unmarshal]. *)
Lemma zero_length_body_is_decoded :
  received (R := serving (response 200 (-1) []))
    (calls (run_do (R := serving (response 200 (-1) []))
              profile_request "Profile" []))
  = Some (response 200 (-1) [])
  /\ length (http_Body.content (http_Response.Body (response 200 (-1) []))) = 0%nat
  /\ decoding_attempted
       (calls (run_do (R := serving (response 200 (-1) []))
                 profile_request "Profile" [])) = true.
Proof. repeat split. Qed.

(** C2 (amended).  If the declared content length of the response is larger
    than 2^24 or zero, [do] returns the length error, the body is not decoded
    and the result object stays as it was. *)
Theorem declared_length_rejected {R : Runtime} r a pt resp :
  received (calls (run_do r a pt)) = Some resp ->
  http_Response.ContentLength resp > 2 ^ 24
  \/ http_Response.ContentLength resp = 0 ->
  ended (run_do r a pt) = Return (Some wired_length)
  /\ decoding_attempted (calls (run_do r a pt)) = false
  /\ result (receiver (run_do r a pt)) = result r.
Proof.
  intros Hrec Hlen.
  destruct (run_do_cases r a pt)
    as [[Hnone _] | (response & m & Hrec' & Hrun & Hres & Hatt)];
    [ congruence | ].
  assert (response = resp) by congruence. subst response.
  rewrite Hrun, receive_eq.
  replace (_ || _) with true.
  - cbn. rewrite attempted_app, Hatt. auto.
  - symmetry. apply orb_true_iff.
    destruct Hlen as [H | H]; [ left; now apply Z.gtb_lt, Z.gt_lt | right; now apply Z.eqb_eq ].
Qed.

Lemma declared_length_rejected_witness :
  ended (run_do (R := serving (response 200 0 [])) profile_request "Profile" [])
  = Return (Some wired_length)
  /\ decoding_attempted
       (calls (run_do (R := serving (response 200 0 []))
                 profile_request "Profile" [])) = false
  /\ result (receiver (run_do (R := serving (response 200 0 []))
                         profile_request "Profile" []))
     = result profile_request.
Proof.
  apply (declared_length_rejected (R := serving (response 200 0 []))
           profile_request "Profile" [] (response 200 0 [])).
  - reflexivity.
  - right. reflexivity.
Defined.

(** C3, as stated, fails: a 406 response with an empty body (declared length
    0) makes [do] return the length error. *)
Lemma empty_406_is_an_error :
  received (R := serving (response 406 0 []))
    (calls (run_do (R := serving (response 406 0 []))
              profile_request "Profile" []))
  = Some (response 406 0 [])
  /\ ended (run_do (R := serving (response 406 0 []))
              profile_request "Profile" [])
     = Return (Some wired_length).
Proof. split; reflexivity. Qed.

(** C3 (amended).  For a response of status 406 or 417 the status raises no
    error: when the declared length passes the check and the body is read
    without error, [do] decodes the body as it does for status 200 and
    returns what [json.Unmarshal] returns, so no error exactly when the
    decoding succeeds. *)
Theorem status_406_417_is_decoded {R : Runtime} r a pt resp :
  received (calls (run_do r a pt)) = Some resp ->
  http_Response.StatusCode resp = 406 \/ http_Response.StatusCode resp = 417 ->
  http_Response.ContentLength resp <= 2 ^ 24 ->
  http_Response.ContentLength resp <> 0 ->
  http_Body.read_error (http_Response.Body resp) = None ->
  ended (run_do r a pt)
  = Return (json_Unmarshal (http_Body.content (http_Response.Body resp))
              (result r))
  /\ decoding_attempted (calls (run_do r a pt)) = true.
Proof.
  intros Hrec Hcode Hmax Hnz Hread.
  destruct (run_do_cases r a pt)
    as [[Hnone _] | (response & m & Hrec' & Hrun & Hres & Hatt)];
    [ congruence | ].
  assert (response = resp) by congruence. subst response.
  rewrite Hrun, receive_eq.
  replace (_ || _) with false.
  2:{ symmetry. apply orb_false_iff. split.
      - rewrite Z.gtb_ltb. apply Z.ltb_ge. exact Hmax.
      - now apply Z.eqb_neq. }
  rewrite Hread, decode_eq. cbv zeta.
  replace (_ || _) with true.
  2:{ destruct Hcode as [H | H]; rewrite H; reflexivity. }
  cbn. rewrite Hres. split; [ reflexivity | ].
  rewrite !attempted_app. cbn. now rewrite !orb_true_r.
Qed.

Lemma status_406_417_is_decoded_witness :
  ended (run_do (R := serving (response 406 2 ok_body))
           profile_request "Profile" [])
  = Return None
  /\ decoding_attempted
       (calls (run_do (R := serving (response 406 2 ok_body))
                 profile_request "Profile" [])) = true.
Proof.
  apply (status_406_417_is_decoded (R := serving (response 406 2 ok_body))
           profile_request "Profile" [] (response 406 2 ok_body)).
  - reflexivity.
  - left. reflexivity.
  - cbn. lia.
  - cbn. lia.
  - reflexivity.
Defined.

(** C4, as stated, fails: a 401 response with an empty body (declared length
    0) makes [do] return the length error, not the authorization failure. *)
Lemma empty_401_is_a_length_error :
  received (R := serving (response 401 0 []))
    (calls (run_do (R := serving (response 401 0 []))
              profile_request "Profile" []))
  = Some (response 401 0 [])
  /\ ended (run_do (R := serving (response 401 0 []))
              profile_request "Profile" [])
     = Return (Some wired_length)
  /\ wired_length <> authorization_failed.
Proof. repeat split. discriminate. Qed.

(** C4 (amended).  For a response of status 401, [do] always returns an
    error, never decodes the body and leaves the result object as it was;
    the error is the authorization failure when the declared length passes
    the check and the body is read without error. *)
Theorem status_401_is_refused {R : Runtime} r a pt resp :
  received (calls (run_do r a pt)) = Some resp ->
  http_Response.StatusCode resp = 401 ->
  (exists err, ended (run_do r a pt) = Return (Some err))
  /\ decoding_attempted (calls (run_do r a pt)) = false
  /\ result (receiver (run_do r a pt)) = result r
  /\ (http_Response.ContentLength resp <= 2 ^ 24 ->
      http_Response.ContentLength resp <> 0 ->
      http_Body.read_error (http_Response.Body resp) = None ->
      ended (run_do r a pt) = Return (Some authorization_failed)).
Proof.
  intros Hrec Hcode.
  destruct (run_do_cases r a pt)
    as [[Hnone _] | (response & m & Hrec' & Hrun & Hres & Hatt)];
    [ congruence | ].
  assert (response = resp) by congruence. subst response.
  rewrite Hrun, receive_eq.
  destruct (_ || _) eqn:Hlen.
  { cbn. rewrite attempted_app, Hatt. repeat split; eauto.
    intros Hmax Hnz _. exfalso.
    apply orb_true_iff in Hlen as [H | H].
    - apply Z.gtb_lt in H. change (Z.shiftl 1 24) with (2 ^ 24) in H. lia.
    - apply Z.eqb_eq in H. contradiction. }
  destruct (http_Body.read_error _) as [ err | ] eqn:Hread.
  { cbn. rewrite !attempted_app, Hatt. repeat split; eauto. discriminate. }
  rewrite decode_eq. cbv zeta. rewrite Hcode. cbn.
  rewrite !attempted_app, Hatt. repeat split; eauto.
Qed.

Lemma status_401_is_refused_witness :
  ended (run_do (R := serving (response 401 2 ok_body))
           profile_request "Profile" [])
  = Return (Some authorization_failed).
Proof.
  apply (status_401_is_refused (R := serving (response 401 2 ok_body))
           profile_request "Profile" [] (response 401 2 ok_body)).
  - reflexivity.
  - reflexivity.
  - cbn. lia.
  - cbn. lia.
  - reflexivity.
Defined.

(* ===================================================================== *)
(** * Request shaping (lines 15-107) *)
(* ===================================================================== *)


Lemma built_app_some l l' x : built l = Some x -> built (l ++ l') = Some x.
Proof.
  induction l as [ | e l IH ]; cbn; [ discriminate | ].
  destruct e; auto.
Qed.

Lemma marshalled_app_some l l' x :
  marshalled l = Some x -> marshalled (l ++ l') = Some x.
Proof.
  induction l as [ | e l IH ]; cbn; [ discriminate | ].
  destruct e; auto.
Qed.

Lemma built_println l s : built (l ++ [CallPrintln s]) = built l.
Proof. induction l as [ | e l IH ]; cbn; [ | destruct e ]; auto. Qed.

Lemma sent_println l s : sent (l ++ [CallPrintln s]) = sent l.
Proof. induction l as [ | e l IH ]; cbn; [ | destruct e ]; auto. Qed.

Section Shaping.
Context {R : Runtime}.

(** What shaping leaves in the receiver is what [http.NewRequest] gets and,
    if accepted, what [client.Do] sends. *)
Lemma issues_of_shape r a pt postData m :
  shape a pt (prepared r a) = (inl postData, m) ->
  issues (run_do r a pt) (httpMethod (req m)) (url (req m)) postData.
Proof.
  intros Hs. destruct (shape_prepared _ _ _ _ _ Hs) as (Hc & _ & Hl).
  rewrite (run_do_shape_ok _ _ _ _ _ Hs), (transact_eq _ _ Hc). cbv zeta.
  unfold issues.
  set (rq := {| http_Request.Method := httpMethod (req m) |}).
  set (new_request :=
         CallNewRequest (httpMethod (req m)) (url (req m)) postData).
  assert (Hb : built (log (add_call new_request m))
               = Some (httpMethod (req m), url (req m), postData)).
  { cbn. now rewrite (built_shaping _ _ Hl). }
  assert (Hsent : sent (log (add_call (CallClientDo rq)
                               (add_call new_request m))) = Some rq).
  { cbn. rewrite <- app_assoc. now rewrite (sent_shaping _ _ Hl). }
  destruct (http_NewRequest _ _ _) as [ err | ].
  { split; [ exact Hb | intros; discriminate ]. }
  destruct (fst (client_Do the_client rq)) as [ response | ].
  - destruct (receive_extends response
                (add_call (CallClientDo rq) (add_call new_request m)))
      as [l' Hl'].
    split; [ | intros _ ]; rewrite calls_out_of, Hl'.
    + cbn [log add_call]. rewrite <- app_assoc. now apply built_app_some.
    + now apply sent_app_some.
  - split; [ | intros _; exact Hsent ].
    cbn [out_of calls log add_call]. now apply built_app_some.
Qed.

(** The calls of a run begin with the calls of its shaping. *)
Lemma calls_of_shape r a pt sr m :
  shape a pt (prepared r a) = (sr, m) ->
  exists rest, calls (run_do r a pt) = (log m ++ rest)%list.
Proof.
  intros Hs. destruct (shape_prepared _ _ _ _ _ Hs) as (Hc & _ & _).
  destruct sr as [ postData | e ].
  - rewrite (run_do_shape_ok _ _ _ _ _ Hs), (transact_eq _ _ Hc). cbv zeta.
    destruct (http_NewRequest _ _ _); [ cbn; eauto | ].
    destruct (fst _) as [ response | ].
    + match goal with
      | |- context [ receive response ?x ] =>
        destruct (receive_extends response x) as [l' Hl']
      end.
      rewrite calls_out_of, Hl'. cbn. rewrite <- !app_assoc. eauto.
    + cbn. rewrite <- !app_assoc. eauto.
  - rewrite (run_do_shape_exit _ _ _ _ _ Hs). cbn.
    exists []. now rewrite app_nil_r.
Qed.

(** An operation function issues what its call of [do] issues. *)
Lemma issues_call res rq a pt m u b :
  issues (run_do (set_request rq (set_result (new res) new_apiRequest)) a pt)
    m u b ->
  issues (call res rq a pt) m u b.
Proof.
  unfold issues, call. intros [Hb Hs].
  destruct (ended _) as [ [ err | ] | p ]; cbn [calls checkErr]; auto.
  rewrite built_println, sent_println. auto.
Qed.

Lemma calls_call res rq a pt :
  exists rest,
    calls (call res rq a pt)
    = (calls (run_do (set_request rq (set_result (new res) new_apiRequest))
                a pt) ++ rest)%list.
Proof.
  unfold call.
  destruct (ended _) as [ [ err | ] | p ]; cbn [calls checkErr]; eauto;
    exists []; now rewrite app_nil_r.
Qed.

End Shaping.

(** Settle [issues (run_do r a pt) m u b] for given [a] and [pt] by running
    the shaping. *)
Ltac by_shape :=
  lazymatch goal with
  | |- issues (run_do ?r ?a ?pt) _ _ _ =>
    let H := fresh "H" in
    pose proof (issues_of_shape r a pt) as H;
    cbn in H; specialize (H _ _ eq_refl); exact H
  end.

(** C7.  Operation name "ApproverEmail" is routed by the flags: with PATH
    alone and a [ResendApproverEmailRequest], [do] issues a POST to
    /rest/v1/ApproverEmail/<CertCenterOrderID>; with QUERY_STRING|PATH and a
    [PutApproverEmailRequest], it issues a PUT to
    /rest/v1/ApproverEmail/<CertCenterOrderID>?ApproverEmail=<email>.
    Neither request has a body. *)
Theorem ApproverEmail_routed_by_flags {R : Runtime} r
    (x : ResendApproverEmailRequest.t) (y : PutApproverEmailRequest.t) :
  issues (run_do (set_request (ReqResendApproverEmail (Some x)) r)
            "ApproverEmail" [CC_PARAM_TYPE_PATH])
    "POST"
    ("https://api.certcenter.com/rest/v1/ApproverEmail/"
       ++ fmt_d (ResendApproverEmailRequest.CertCenterOrderID x))
    None
  /\ issues (run_do (set_request (ReqPutApproverEmail (Some y)) r)
               "ApproverEmail" [Z.lor CC_PARAM_TYPE_QS CC_PARAM_TYPE_PATH])
       "PUT"
       ("https://api.certcenter.com/rest/v1/ApproverEmail/"
          ++ fmt_d (PutApproverEmailRequest.CertCenterOrderID y)
          ++ "?ApproverEmail=" ++ PutApproverEmailRequest.ApproverEmail y)
       None.
Proof.
  split; by_shape.
Qed.

(** C8.  Operation name "DeleteUser" with the PATH flag and a
    [DeleteUserRequest] is remapped: [do] issues a DELETE to
    https://api.certcenter.com/rest/v1/User/<UsernameOrUserId>, with no
    body. *)
Theorem DeleteUser_is_DELETE_on_User {R : Runtime} r (x : DeleteUserRequest.t) :
  issues (run_do (set_request (ReqDeleteUser (Some x)) r)
            "DeleteUser" [CC_PARAM_TYPE_PATH])
    "DELETE"
    ("https://api.certcenter.com/rest/v1/User/"
       ++ DeleteUserRequest.UsernameOrUserId x)
    None.
Proof. by_shape. Qed.




Section AfterShaping.
Context {R : Runtime}.

(** After a shaping that did not end the call, the next call is
    [http.NewRequest]. *)
Lemma calls_after_shape r a pt postData m :
  shape a pt (prepared r a) = (inl postData, m) ->
  exists rest,
    calls (run_do r a pt)
    = (log m ++ CallNewRequest (httpMethod (req m)) (url (req m)) postData
         :: rest)%list.
Proof.
  intros Hs. destruct (shape_prepared _ _ _ _ _ Hs) as (Hc & _ & _).
  rewrite (run_do_shape_ok _ _ _ _ _ Hs), (transact_eq _ _ Hc). cbv zeta.
  destruct (http_NewRequest _ _ _); [ cbn; eauto | ].
  destruct (fst _) as [ response | ].
  - match goal with
    | |- context [ receive response ?x ] =>
      destruct (receive_extends response x) as [l' Hl']
    end.
    rewrite calls_out_of, Hl'. cbn. rewrite <- !app_assoc. cbn. eauto.
  - cbn. rewrite <- !app_assoc. cbn. eauto.
Qed.

(** Past the shaping, no type assertion is left to fail. *)
Lemma no_assertion_after_shape r a pt postData m :
  shape a pt (prepared r a) = (inl postData, m) ->
  ended (run_do r a pt) <> Panic TypeAssertion.
Proof.
  intros Hs. destruct (shape_prepared _ _ _ _ _ Hs) as (Hc & _ & _).
  rewrite (run_do_shape_ok _ _ _ _ _ Hs), (transact_eq _ _ Hc). cbv zeta.
  destruct (http_NewRequest _ _ _); [ discriminate | ].
  destruct (fst _) as [ response | ]; [ | discriminate ].
  rewrite receive_eq.
  destruct (_ || _); [ discriminate | ].
  destruct (http_Body.read_error _); [ discriminate | ].
  rewrite decode_eq. cbv zeta.
  destruct (_ || _); [ discriminate | ].
  destruct (_ =? 401)%Z; discriminate.
Qed.

End AfterShaping.

(** C6 (the code departs from the claim).  The claim: with BODY and PATH
    set, every field used in the path is cleared before the request object is
    serialized.  The code, for [Revoke]: the object handed to [json.Marshal]
    is the caller's request unchanged, [CertCenterOrderID] included, while
    the same identifier is in the path of the URL. *)
Theorem Revoke_serializes_the_order_id {R : Runtime} (x : RevokeRequest.t) :
  marshalled (calls (Revoke (Some x))) = Some (ReqRevoke (Some x))
  /\ match json_Marshal (ReqRevoke (Some x)) with
     | inl d =>
       issues (Revoke (Some x))
         "DELETE"
         ("https://api.certcenter.com/rest/v1/Revoke/"
            ++ fmt_d (RevokeRequest.CertCenterOrderID x))
         (Some (string_of_list_byte d))
     | inr err => ended (Revoke (Some x)) = Return (Some err)
     end.
Proof.
  unfold Revoke.
  set (r := set_request (ReqRevoke (Some x))
              (set_result (new RevokeResult) new_apiRequest)).
  set (pt := [Z.lor CC_PARAM_TYPE_BODY CC_PARAM_TYPE_PATH]).
  destruct (shape "Revoke" pt (prepared r "Revoke")) as [sr m] eqn:Hs.
  pose proof (calls_of_shape _ _ _ _ _ Hs) as [rest Hrest].
  pose proof (issues_of_shape r "Revoke" pt) as Hi.
  pose proof (run_do_shape_exit r "Revoke" pt) as He.
  rewrite Hs in Hi, He.
  destruct (calls_call RevokeResult (ReqRevoke (Some x)) "Revoke" pt)
    as [rest' Hrest'].
  fold r in Hrest'. rewrite Hrest', Hrest.
  unfold shape, marshal_request, the_RevokeRequest, bind, get, modify, emit,
    ret, return_ in Hs.
  cbn in Hs.
  destruct (json_Marshal (ReqRevoke (Some x))) as [ d | err ];
    inversion Hs; subst sr m; cbn [log app marshalled]; split; try reflexivity.
  - apply issues_call. fold r. exact (Hi _ _ eq_refl).
  - unfold call. fold r. rewrite (He _ _ eq_refl). reflexivity.
Qed.

(** The failing call: the payload is built from a request that still has
    order 123 in it, and the path has it too. *)
Example Revoke_123 :
  marshalled (calls (Revoke (R := serving (response 200 2 ok_body))
                       (Some revoke123)))
  = Some (ReqRevoke (Some revoke123))
  /\ RevokeRequest.CertCenterOrderID revoke123 = 123
  /\ built (calls (Revoke (R := serving (response 200 2 ok_body))
                      (Some revoke123)))
     = Some ("DELETE", "https://api.certcenter.com/rest/v1/Revoke/123",
             Some "{}").
Proof. repeat split. Qed.

(** The sibling case of the same switch arm: for "User" the path field is
    cleared in the object handed to [json.Marshal]. *)
Lemma UpdateUser_path_field_cleared {R : Runtime} r (x : UpdateUserRequest.t) :
  marshalled
    (calls (run_do (set_request (ReqUpdateUser (Some x)) r) "User"
              [Z.lor CC_PARAM_TYPE_BODY CC_PARAM_TYPE_PATH]))
  = Some (ReqUpdateUser (Some
      {| UpdateUserRequest.UserData :=
           UserData.set_UsernameOrUserId EmptyString
             (UpdateUserRequest.UserData x) |})).
Proof.
  set (r' := set_request (ReqUpdateUser (Some x)) r).
  set (pt := [Z.lor CC_PARAM_TYPE_BODY CC_PARAM_TYPE_PATH]).
  destruct (shape "User" pt (prepared r' "User")) as [sr m] eqn:Hs.
  pose proof (calls_of_shape _ _ _ _ _ Hs) as [rest Hrest].
  rewrite Hrest.
  unfold shape, marshal_request, the_UpdateUserRequest, bind, get, modify,
    emit, ret, return_ in Hs.
  cbn in Hs.
  destruct (json_Marshal _); inversion Hs; reflexivity.
Qed.

(** C9 (the code departs from the claim).  The claim: every operation
    function stores a request of the type the dispatcher asserts.  The code:
    [VulnerabilityAssessmentRescan] stores a
    [VulnerabilityAssessmentRescanRequest], the PATH arm for
    "VulnerabilityAssessment" asserts a [VulnerabilityAssessmentRequest], and
    every call panics on the assertion before any request is built. *)
Theorem VulnerabilityAssessmentRescan_fails_the_assertion {R : Runtime}
    (request : option VulnerabilityAssessmentRescanRequest.t) :
  ended (VulnerabilityAssessmentRescan request) = Panic TypeAssertion
  /\ calls (VulnerabilityAssessmentRescan request) = [].
Proof.
  split; reflexivity.
Qed.

(** C10, as stated, fails: with BODY|PATH and an operation name that the
    arm does not list, the method stays GET and the URL bare, but the
    request object is serialized into the body all the same. *)
Lemma unlisted_BODY_PATH_has_a_body :
  (("Quote" =? "Revoke") || ("Quote" =? "User"))%string = false
  /\ built (calls (run_do (R := serving (response 200 2 ok_body))
                     (set_request (ReqQuote (Some quote1)) profile_request)
                     "Quote" [Z.lor CC_PARAM_TYPE_BODY CC_PARAM_TYPE_PATH]))
     = Some ("GET", "https://api.certcenter.com/rest/v1/Quote", Some "{}").
Proof. repeat split. Qed.

(** C10 (amended).  When the first flag value is no case of the switch, or
    is PATH or QUERY_STRING|PATH with an operation name the case does not
    list, the first call [do] makes is [http.NewRequest] (so nothing was
    encoded or serialized and no shaping error raised), and [do] issues a
    plain GET to https://api.certcenter.com/rest/v1/<operationName>, with no
    query string and no body. *)
Theorem unlisted_call_is_plain_GET {R : Runtime} r a p rest :
  falls_through p a = true ->
  issues (run_do r a (p :: rest))
    "GET" ("https://api.certcenter.com/rest/v1/" ++ a) None
  /\ hd_error (calls (run_do r a (p :: rest)))
     = Some (CallNewRequest "GET"
               ("https://api.certcenter.com/rest/v1/" ++ a) None).
Proof.
  intros Hf.
  assert (Hs : shape a (p :: rest) (prepared r a) = (inl None, prepared r a)).
  { revert Hf. unfold falls_through, shape.
    destruct (Z.eqb_spec p CC_PARAM_TYPE_QS) as [-> | _];
      [ intros Hf; vm_compute in Hf; discriminate | ].
    destruct (Z.eqb_spec p CC_PARAM_TYPE_BODY) as [-> | _];
      [ intros Hf; vm_compute in Hf; discriminate | ].
    destruct (Z.eqb_spec p CC_PARAM_TYPE_PATH) as [-> | _].
    { destruct (a =? "ApproverEmail")%string;
        [ intros Hf; vm_compute in Hf; discriminate | ].
      destruct (a =? "Order")%string;
        [ intros Hf; vm_compute in Hf; discriminate | ].
      destruct (a =? "VulnerabilityAssessment")%string;
        [ intros Hf; vm_compute in Hf; discriminate | ].
      destruct (a =? "User")%string;
        [ intros Hf; vm_compute in Hf; discriminate | ].
      destruct (a =? "DeleteUser")%string;
        [ intros Hf; vm_compute in Hf; discriminate | ].
      reflexivity. }
    destruct (Z.eqb_spec p (Z.lor CC_PARAM_TYPE_QS CC_PARAM_TYPE_PATH))
      as [-> | _].
    { destruct (a =? "ApproverEmail")%string;
        [ intros Hf; vm_compute in Hf; discriminate | ].
      destruct (a =? "Order")%string;
        [ intros Hf; vm_compute in Hf; discriminate | ].
      reflexivity. }
    destruct (Z.eqb_spec p (Z.lor CC_PARAM_TYPE_BODY CC_PARAM_TYPE_PATH))
      as [-> | _];
      [ intros Hf; vm_compute in Hf; discriminate | ].
    reflexivity. }
  split.
  - exact (issues_of_shape _ _ _ _ _ Hs).
  - destruct (calls_after_shape _ _ _ _ _ Hs) as [l Hl].
    rewrite Hl. reflexivity.
Qed.

Lemma unlisted_call_is_plain_GET_witness :
  issues (R := serving (response 200 2 ok_body))
    (run_do (R := serving (response 200 2 ok_body))
       (set_request (ReqQuote (Some quote1)) profile_request) "Quote"
       [Z.lor CC_PARAM_TYPE_QS CC_PARAM_TYPE_BODY])
    "GET" "https://api.certcenter.com/rest/v1/Quote" None
  /\ hd_error
       (calls (run_do (R := serving (response 200 2 ok_body))
                 (set_request (ReqQuote (Some quote1)) profile_request) "Quote"
                 [Z.lor CC_PARAM_TYPE_QS CC_PARAM_TYPE_BODY]))
     = Some (CallNewRequest "GET" "https://api.certcenter.com/rest/v1/Quote"
               None).
Proof.
  apply (unlisted_call_is_plain_GET (R := serving (response 200 2 ok_body))
           (set_request (ReqQuote (Some quote1)) profile_request) "Quote"
           (Z.lor CC_PARAM_TYPE_QS CC_PARAM_TYPE_BODY) []).
  reflexivity.
Defined.

(** ** The other operation functions store the type their arm asserts *)

Lemma points_to_new t : points_to t (new t) = true.
Proof.
  unfold points_to. cbn. destruct (resultType_eq_dec t t); congruence.
Qed.

(** While the result object still points to the struct allocated, an
    operation function ends as its call of [do] ends. *)
Lemma ended_call {R : Runtime} res rq a pt :
  points_to res
    (result (receiver (run_do (set_request rq (set_result (new res)
                                                 new_apiRequest)) a pt)))
  = true ->
  ended (call res rq a pt)
  = ended (run_do (set_request rq (set_result (new res) new_apiRequest)) a pt).
Proof.
  unfold call. intros H.
  destruct (ended (run_do _ a pt)) eqn:E; [ | exact E ].
  cbn [ended]. now rewrite H.
Qed.

(** Settle [ended (run_do r a pt) <> Panic TypeAssertion] by running the
    shaping on each kind of pointer and each answer of the libraries. *)
Ltac passes_assertion :=
  lazymatch goal with
  | |- ended (run_do ?r ?a ?pt) <> _ =>
    let Hs := fresh "Hs" in
    let sr := fresh "sr" in
    let m := fresh "m" in
    destruct (shape a pt (prepared r a)) as [[sr | sr] m] eqn:Hs;
    [ exact (no_assertion_after_shape _ _ _ _ _ Hs)
    | rewrite (run_do_shape_exit _ _ _ _ _ Hs);
      unfold shape, values_of_request, marshal_request,
        the_ResendApproverEmailRequest, the_DeleteOrderRequest,
        the_PutApproverEmailRequest, the_GetOrderRequest, the_RevokeRequest,
        bind, get, modify, emit, ret, return_, panic_ in Hs;
      cbn in Hs;
      repeat match type of Hs with
             | context [ query_Values ?x ] =>
               destruct (query_Values x); cbn in Hs
             | context [ json_Marshal ?x ] =>
               destruct (json_Marshal x); cbn in Hs
             end;
      inversion Hs; discriminate ]
  end.

(** In the calls of [do] that these five operation functions make, the
    dispatcher's assertion on the request never fails. *)
Lemma ResendApproverEmail_passes_assertion {R : Runtime} r request :
  ended (run_do (set_request (ReqResendApproverEmail request) r)
           "ApproverEmail" [CC_PARAM_TYPE_PATH])
  <> Panic TypeAssertion.
Proof. destruct request; passes_assertion. Qed.

Lemma DeleteOrder_passes_assertion {R : Runtime} r request :
  ended (run_do (set_request (ReqDeleteOrder request) r)
           "Order" [CC_PARAM_TYPE_PATH])
  <> Panic TypeAssertion.
Proof. destruct request; passes_assertion. Qed.

Lemma PutApproverEmail_passes_assertion {R : Runtime} r request :
  ended (run_do (set_request (ReqPutApproverEmail request) r)
           "ApproverEmail" [Z.lor CC_PARAM_TYPE_QS CC_PARAM_TYPE_PATH])
  <> Panic TypeAssertion.
Proof. destruct request; passes_assertion. Qed.

Lemma GetOrder_passes_assertion {R : Runtime} r request :
  ended (run_do (set_request (ReqGetOrder request) r)
           "Order" [Z.lor CC_PARAM_TYPE_QS CC_PARAM_TYPE_PATH])
  <> Panic TypeAssertion.
Proof. destruct request; passes_assertion. Qed.

Lemma Revoke_passes_assertion {R : Runtime} r request :
  ended (run_do (set_request (ReqRevoke request) r)
           "Revoke" [Z.lor CC_PARAM_TYPE_BODY CC_PARAM_TYPE_PATH])
  <> Panic TypeAssertion.
Proof. destruct request; passes_assertion. Qed.

(* ===================================================================== *)
(** * Further properties of the dispatcher *)
(* ===================================================================== *)

(** Run the shaping on every arm of the switch, every operation name the
    arms test, every kind of request object and every answer of the
    libraries. *)
Ltac pick_arm p :=
  repeat match goal with
         | |- context [ Z.eqb p ?c ] =>
           destruct (Z.eqb_spec p c) as [-> | ?]; cbv iota
         end.

Ltac pick_name a :=
  repeat match goal with
         | |- context [ String.eqb a ?s ] =>
           destruct (String.eqb_spec a s) as [-> | ?]; cbv iota
         end.

Ltac shape_cases r a p :=
  unfold shape; pick_arm p; pick_name a;
  unfold values_of_request, marshal_request,
    the_ResendApproverEmailRequest, the_DeleteOrderRequest,
    the_VulnerabilityAssessmentRequest, the_GetUserRequest,
    the_DeleteUserRequest, the_PutApproverEmailRequest, the_GetOrderRequest,
    the_RevokeRequest, the_UpdateUserRequest,
    bind, get, modify, emit, ret, return_, panic_;
  repeat
    (cbn [req log prepared request set_client set_url set_method
          set_httpMethod set_request];
     match goal with
     | E : request r = _ |- context [ match request r with _ => _ end ] =>
       rewrite E
     | |- context [ match request r with _ => _ end ] =>
       destruct (request r) as
         [ | [?|] | [?|] | [?|] | [?|] | [?|] | [?|] | [?|] | [?|] | [?|]
           | [?|] | [?|] | [?|] | [?|] | [?|] | [?|] | [?|] | [?|] | [?|]
           | [?|] | [?|] | [?|] | [?|] | [?|] | [?|] | [?|] | [?|] | [?|]
           | [?|] | [?|] ] eqn:?
     | |- context [ match query_Values ?x with _ => _ end ] =>
       destruct (query_Values x)
     | |- context [ match json_Marshal ?x with _ => _ end ] =>
       destruct (json_Marshal x)
     end);
  cbn [req log prepared request set_client set_url set_method set_httpMethod
       set_request].

Lemma prefix_nil s : prefix EmptyString s = true.
Proof. destruct s; reflexivity. Qed.

Section ShapeTable.
Context {R : Runtime}.

(** What every shaping leaves in the receiver. *)
Lemma shape_facts r a pt sr m :
  shape a pt (prepared r a) = (sr, m) ->
  In (httpMethod (req m)) http_methods
  /\ prefix rawURL (url (req m)) = true
  /\ method (req m) = a
  /\ (request (req m) = request r
      \/ exists x, request r = ReqUpdateUser (Some x) /\ a = "User"
                   /\ hd_error pt
                      = Some (Z.lor CC_PARAM_TYPE_BODY CC_PARAM_TYPE_PATH)
                   /\ request (req m) = ReqUpdateUser (Some (cleared x))).
Proof.
  destruct pt as [ | p rest ].
  { cbn. intros H. inversion H. cbn. repeat split; auto using prefix_nil. }
  revert sr m. shape_cases r a p.
  all: intros sr m H; inversion H; subst.
  all: cbn [req log request httpMethod url method set_client set_url
            set_method set_httpMethod set_request http_methods].
  all: repeat split; auto 10 using in_eq, in_cons.
  all: try (cbn; apply prefix_nil).
  all: try (unfold http_methods; cbn [In]; tauto).
  all: try (right; eexists; repeat split; eauto).
Qed.

End ShapeTable.

Lemma built_shaping_only l : forallb shaping l = true -> built l = None.
Proof.
  intros H. rewrite <- (app_nil_r l). now rewrite built_shaping.
Qed.

Lemma close_shaping l l' :
  forallb shaping l = true -> existsb is_close (l ++ l') = existsb is_close l'.
Proof.
  induction l as [ | e l IH ]; cbn; [ reflexivity | ].
  intros H. apply andb_prop in H as [He Hl].
  destruct e; try discriminate; auto.
Qed.

Lemma receiver_out_of x : receiver (out_of x) = req (snd x).
Proof. destruct x as [[u | e] m]; reflexivity. Qed.

Lemma fmt_d_injective z z' : fmt_d z = fmt_d z' -> z = z'.
Proof.
  unfold fmt_d. intros H. apply to_int_inj.
  assert (E : Some (Z.to_int z) = Some (Z.to_int z')).
  { rewrite <- !NilEmpty.isi. now rewrite H. }
  now inversion E.
Qed.

Section Receiver.
Context {R : Runtime}.

(** Building, sending and receiving change no field of the receiver but
    [statusCode] and [result]. *)
Lemma transact_fields postData m :
  client (req m) = Some the_client ->
  method (req (snd (transact postData m))) = method (req m)
  /\ httpMethod (req (snd (transact postData m))) = httpMethod (req m)
  /\ url (req (snd (transact postData m))) = url (req m)
  /\ request (req (snd (transact postData m))) = request (req m)
  /\ client (req (snd (transact postData m))) = client (req m).
Proof.
  intros Hc. rewrite (transact_eq _ _ Hc). cbv zeta.
  destruct (http_NewRequest _ _ _); [ cbn; auto | ].
  destruct (fst _) as [ response | ]; [ | cbn; auto ].
  rewrite receive_eq.
  destruct (_ || _); [ cbn; auto | ].
  destruct (http_Body.read_error _); [ cbn; auto | ].
  rewrite decode_eq. cbv zeta.
  destruct (_ || _); [ cbn; auto | ].
  destruct (_ =? 401)%Z; cbn; auto.
Qed.

(** The receiver after a run has the method, URL and request object that the
    shaping left. *)
Lemma run_do_fields r a pt sr m :
  shape a pt (prepared r a) = (sr, m) ->
  method (receiver (run_do r a pt)) = method (req m)
  /\ httpMethod (receiver (run_do r a pt)) = httpMethod (req m)
  /\ url (receiver (run_do r a pt)) = url (req m)
  /\ request (receiver (run_do r a pt)) = request (req m)
  /\ client (receiver (run_do r a pt)) = Some the_client.
Proof.
  intros Hs. destruct (shape_prepared _ _ _ _ _ Hs) as (Hc & _ & _).
  destruct sr as [ postData | e ].
  - rewrite (run_do_shape_ok _ _ _ _ _ Hs), receiver_out_of.
    destruct (transact_fields postData m Hc) as (H1 & H2 & H3 & H4 & H5).
    rewrite H1, H2, H3, H4, H5. auto.
  - rewrite (run_do_shape_exit _ _ _ _ _ Hs). cbn. auto.
Qed.

(** A run that built no HTTP request ended in its shaping. *)
Lemma built_inv r a pt meth u b :
  built (calls (run_do r a pt)) = Some (meth, u, b) ->
  exists m,
    shape a pt (prepared r a) = (inl b, m)
    /\ httpMethod (req m) = meth /\ url (req m) = u.
Proof.
  intros Hb.
  destruct (shape a pt (prepared r a)) as [[postData | e] m] eqn:Hs.
  - destruct (issues_of_shape _ _ _ _ _ Hs) as [Hb' _].
    rewrite Hb in Hb'. inversion Hb'. eauto.
  - destruct (shape_prepared _ _ _ _ _ Hs) as (_ & _ & Hl).
    rewrite (run_do_shape_exit _ _ _ _ _ Hs) in Hb. cbn in Hb.
    rewrite (built_shaping_only _ Hl) in Hb. discriminate.
Qed.

(** A run that built no HTTP request left the result object alone. *)
Lemma result_when_unbuilt r a pt :
  built (calls (run_do r a pt)) = None ->
  result (receiver (run_do r a pt)) = result r.
Proof.
  intros Hb.
  destruct (shape a pt (prepared r a)) as [[postData | e] m] eqn:Hs.
  - destruct (issues_of_shape _ _ _ _ _ Hs) as [Hb' _]. congruence.
  - destruct (shape_prepared _ _ _ _ _ Hs) as (_ & Hr & _).
    now rewrite (run_do_shape_exit _ _ _ _ _ Hs).
Qed.

(** An operation function whose call of [do] built no HTTP request ends as
    that call ends. *)
Lemma ended_call_unbuilt res rq a pt :
  built (calls (run_do (set_request rq (set_result (new res) new_apiRequest))
                  a pt)) = None ->
  ended (call res rq a pt)
  = ended (run_do (set_request rq (set_result (new res) new_apiRequest)) a pt).
Proof.
  intros Hb. apply ended_call.
  rewrite (result_when_unbuilt _ _ _ Hb). apply points_to_new.
Qed.

End Receiver.

(** X1.  Called without a parameter-location flag, [do] encodes and
    serializes nothing: its first call is [http.NewRequest], and it issues a
    GET to https://api.certcenter.com/rest/v1/<operationName> with no query
    string and no body, whatever the request object is. *)
Theorem no_flag_is_plain_GET {R : Runtime} r a :
  issues (run_do r a [])
    "GET" ("https://api.certcenter.com/rest/v1/" ++ a) None
  /\ hd_error (calls (run_do r a []))
     = Some (CallNewRequest "GET"
               ("https://api.certcenter.com/rest/v1/" ++ a) None).
Proof.
  assert (Hs : shape a [] (prepared r a) = (inl None, prepared r a))
    by reflexivity.
  split.
  - exact (issues_of_shape _ _ _ _ _ Hs).
  - destruct (calls_after_shape _ _ _ _ _ Hs) as [l Hl].
    rewrite Hl. reflexivity.
Qed.

(** X2.  With the QUERY_STRING flag, for every operation name: when package
    query encodes the request object, [do] issues a GET without body to
    https://api.certcenter.com/rest/v1/<operationName>?<encoding>; when the
    package fails, [do] returns its error and builds no HTTP request. *)
Theorem query_string_flag {R : Runtime} r a rest :
  gets_with_query (run_do r a (CC_PARAM_TYPE_QS :: rest)) (request r)
    ("https://api.certcenter.com/rest/v1/" ++ a).
Proof.
  unfold gets_with_query.
  destruct (query_Values (request r)) as [ v | err ] eqn:Hq.
  - assert (Hs : shape a (CC_PARAM_TYPE_QS :: rest) (prepared r a)
                 = (inl None,
                    {| req := set_url ((rawURL ++ a) ++ "?" ++ Values_Encode v)
                                (req (prepared r a));
                       log := [CallQueryValues (request r)] |})).
    { unfold shape, values_of_request, bind, get, emit, modify, ret. cbn.
      rewrite Hq. reflexivity. }
    pose proof (issues_of_shape _ _ _ _ _ Hs) as H.
    cbn [req set_url httpMethod url prepared set_client set_method
         set_httpMethod] in H.
    exact H.
  - assert (Hs : shape a (CC_PARAM_TYPE_QS :: rest) (prepared r a)
                 = (inr (Return (Some err)),
                    {| req := req (prepared r a);
                       log := [CallQueryValues (request r)] |})).
    { unfold shape, values_of_request, bind, get, emit, modify, ret. cbn.
      rewrite Hq. reflexivity. }
    rewrite (run_do_shape_exit _ _ _ _ _ Hs). split; reflexivity.
Qed.

(** X3.  With the BODY flag, for every operation name: when [json.Marshal]
    serializes the request object, [do] issues a POST to
    https://api.certcenter.com/rest/v1/<operationName> whose body is the
    serialization; when it fails, [do] returns its error and builds no HTTP
    request. *)
Theorem body_flag_posts_json {R : Runtime} r a rest :
  posts_json (run_do r a (CC_PARAM_TYPE_BODY :: rest)) (request r)
    ("https://api.certcenter.com/rest/v1/" ++ a).
Proof.
  unfold posts_json.
  destruct (json_Marshal (request r)) as [ d | err ] eqn:Hq.
  - assert (Hs : shape a (CC_PARAM_TYPE_BODY :: rest) (prepared r a)
                 = (inl (Some (string_of_list_byte d)),
                    {| req := set_httpMethod "POST" (req (prepared r a));
                       log := [CallJsonMarshal (request r)] |})).
    { unfold shape, marshal_request, bind, get, emit, modify, ret. cbn.
      rewrite Hq. reflexivity. }
    exact (issues_of_shape _ _ _ _ _ Hs).
  - assert (Hs : shape a (CC_PARAM_TYPE_BODY :: rest) (prepared r a)
                 = (inr (Return (Some err)),
                    {| req := set_httpMethod "POST" (req (prepared r a));
                       log := [CallJsonMarshal (request r)] |})).
    { unfold shape, marshal_request, bind, get, emit, modify, ret. cbn.
      rewrite Hq. reflexivity. }
    rewrite (run_do_shape_exit _ _ _ _ _ Hs). split; reflexivity.
Qed.

Section OperationTables.
Context {R : Runtime}.

Lemma built_checkErr err l : built (checkErr err l) = built l.
Proof. destruct err; [ apply built_println | reflexivity ]. Qed.

Lemma built_call res rq a pt :
  built (calls (call res rq a pt))
  = built (calls (run_do (set_request rq (set_result (new res) new_apiRequest))
                    a pt)).
Proof.
  unfold call.
  destruct (ended (run_do _ a pt)); [ apply built_checkErr | reflexivity ].
Qed.

Lemma gets_with_query_call res rq a pt u :
  gets_with_query
    (run_do (set_request rq (set_result (new res) new_apiRequest)) a pt) rq u ->
  gets_with_query (call res rq a pt) rq u.
Proof.
  unfold gets_with_query. destruct (query_Values rq).
  - apply issues_call.
  - intros [He Hb]. rewrite (ended_call_unbuilt _ _ _ _ Hb), built_call. auto.
Qed.

Lemma posts_json_call res rq a pt u :
  posts_json
    (run_do (set_request rq (set_result (new res) new_apiRequest)) a pt) rq u ->
  posts_json (call res rq a pt) rq u.
Proof.
  unfold posts_json. destruct (json_Marshal rq).
  - apply issues_call.
  - intros [He Hb]. rewrite (ended_call_unbuilt _ _ _ _ Hb), built_call. auto.
Qed.

End OperationTables.

(** X4.  The operation functions without request ([Profile], [Limit],
    [Products]) each issue a GET, without query string and body, to the
    endpoint of their name. *)
Theorem plain_operations {R : Runtime} :
  issues Profile "GET" "https://api.certcenter.com/rest/v1/Profile" None
  /\ issues Limit "GET" "https://api.certcenter.com/rest/v1/Limit" None
  /\ issues Products "GET" "https://api.certcenter.com/rest/v1/Products" None.
Proof.
  unfold Profile, Limit, Products.
  refine (conj _ (conj _ _)); apply issues_call.
  - exact (proj1 (no_flag_is_plain_GET _ "Profile")).
  - exact (proj1 (no_flag_is_plain_GET _ "Limit")).
  - exact (proj1 (no_flag_is_plain_GET _ "Products")).
Qed.

(** X5.  The operation functions that pass the QUERY_STRING flag issue a
    GET to the endpoint named in their call of [do], followed by the
    encoding of their request: [ProductDetails], [Quote], [UserAgreement],
    [ApproverList], [GetOrders] (endpoint "Orders") and [GetModifiedOrders]
    (endpoint "GetModifiedOrders"); when the encoding fails they return its
    error and build no HTTP request. *)
Theorem query_operations {R : Runtime} code
    (q : option QuoteRequest.t) (l : option ApproverListRequest.t)
    (o : option GetOrdersRequest.t) (m : option GetModifiedOrdersRequest.t) :
  gets_with_query (ProductDetails code)
    (ReqProductDetails (Some {| ProductDetailsRequest.ProductCode := code |}))
    "https://api.certcenter.com/rest/v1/ProductDetails"
  /\ gets_with_query (Quote q) (ReqQuote q)
       "https://api.certcenter.com/rest/v1/Quote"
  /\ gets_with_query (UserAgreement code)
       (ReqUserAgreement (Some {| UserAgreementRequest.ProductCode := code |}))
       "https://api.certcenter.com/rest/v1/UserAgreement"
  /\ gets_with_query (ApproverList l) (ReqApproverList l)
       "https://api.certcenter.com/rest/v1/ApproverList"
  /\ gets_with_query (GetOrders o) (ReqGetOrders o)
       "https://api.certcenter.com/rest/v1/Orders"
  /\ gets_with_query (GetModifiedOrders m) (ReqGetModifiedOrders m)
       "https://api.certcenter.com/rest/v1/GetModifiedOrders".
Proof.
  unfold ProductDetails, Quote, UserAgreement, ApproverList, GetOrders,
    GetModifiedOrders.
  refine (conj _ (conj _ (conj _ (conj _ (conj _ _)))));
    apply gets_with_query_call;
    match goal with
    | |- gets_with_query (run_do ?r ?a (_ :: ?rest)) _ _ =>
      exact (query_string_flag r a rest)
    end.
Qed.

(** X6.  The operation functions that pass the BODY flag issue a POST to
    the endpoint of their name with the serialized request as body:
    [ValidateCSR], [Order], [Reissue], [ValidateName], [DNSData], [FileData]
    and [VulnerabilityAssessment]; when the serialization fails they return
    its error and build no HTTP request. *)
Theorem body_operations {R : Runtime}
    (c : option ValidateCSRRequest.t) (o : option OrderRequest.t)
    (i : option ReissueRequest.t) (n : option ValidateNameRequest.t)
    (d : option DNSDataRequest.t) (f : option FileDataRequest.t)
    (v : option VulnerabilityAssessmentRequest.t) :
  posts_json (ValidateCSR c) (ReqValidateCSR c)
    "https://api.certcenter.com/rest/v1/ValidateCSR"
  /\ posts_json (Order o) (ReqOrder o)
       "https://api.certcenter.com/rest/v1/Order"
  /\ posts_json (Reissue i) (ReqReissue i)
       "https://api.certcenter.com/rest/v1/Reissue"
  /\ posts_json (ValidateName n) (ReqValidateName n)
       "https://api.certcenter.com/rest/v1/ValidateName"
  /\ posts_json (DNSData d) (ReqDNSData d)
       "https://api.certcenter.com/rest/v1/DNSData"
  /\ posts_json (FileData f) (ReqFileData f)
       "https://api.certcenter.com/rest/v1/FileData"
  /\ posts_json (VulnerabilityAssessment v) (ReqVulnerabilityAssessment v)
       "https://api.certcenter.com/rest/v1/VulnerabilityAssessment".
Proof.
  unfold ValidateCSR, Order, Reissue, ValidateName, DNSData, FileData,
    VulnerabilityAssessment.
  refine (conj _ (conj _ (conj _ (conj _ (conj _ (conj _ _))))));
    apply posts_json_call;
    match goal with
    | |- posts_json (run_do ?r ?a (_ :: ?rest)) _ _ =>
      exact (body_flag_posts_json r a rest)
    end.
Qed.

(** X7.  The remaining routes of the PATH arm, each without body:
    [DeleteOrder] issues a DELETE to /rest/v1/Order/<CertCenterOrderID>;
    "User" with a [GetUserRequest] is a GET to
    /rest/v1/User/<UsernameOrUserId>; "VulnerabilityAssessment" with a
    [VulnerabilityAssessmentRequest] is a GET to
    /rest/v1/VulnerabilityAssessment/<CertCenterOrderID>. *)
Theorem PATH_routes {R : Runtime} r (x : DeleteOrderRequest.t)
    (y : GetUserRequest.t) (z : VulnerabilityAssessmentRequest.t) :
  issues (DeleteOrder (Some x))
    "DELETE"
    ("https://api.certcenter.com/rest/v1/Order/"
       ++ fmt_d (DeleteOrderRequest.CertCenterOrderID x))
    None
  /\ issues (run_do (set_request (ReqGetUser (Some y)) r)
               "User" [CC_PARAM_TYPE_PATH])
       "GET"
       ("https://api.certcenter.com/rest/v1/User/"
          ++ UserData.UsernameOrUserId (GetUserRequest.UserData y))
       None
  /\ issues (run_do (set_request (ReqVulnerabilityAssessment (Some z)) r)
               "VulnerabilityAssessment" [CC_PARAM_TYPE_PATH])
       "GET"
       ("https://api.certcenter.com/rest/v1/VulnerabilityAssessment/"
          ++ fmt_d (VulnerabilityAssessmentRequest.CertCenterOrderID z))
       None.
Proof.
  unfold DeleteOrder.
  refine (conj _ (conj _ _)); [ apply issues_call | | ]; by_shape.
Qed.

(** X8.  "User" with BODY|PATH and an [UpdateUserRequest]: [do] empties
    [UsernameOrUserId] in the caller's struct (the receiver's request after
    the call is the emptied one), serializes the emptied struct, and issues
    a POST with that body to /rest/v1/User/<the name as it was>; when the
    serialization fails, [do] returns its error. *)
Theorem UpdateUser_route {R : Runtime} r (x : UpdateUserRequest.t) :
  request (receiver (run_do (set_request (ReqUpdateUser (Some x)) r) "User"
                       [Z.lor CC_PARAM_TYPE_BODY CC_PARAM_TYPE_PATH]))
  = ReqUpdateUser (Some (cleared x))
  /\ match json_Marshal (ReqUpdateUser (Some (cleared x))) with
     | inl d =>
       issues (run_do (set_request (ReqUpdateUser (Some x)) r) "User"
                 [Z.lor CC_PARAM_TYPE_BODY CC_PARAM_TYPE_PATH])
         "POST"
         ("https://api.certcenter.com/rest/v1/User/"
            ++ UserData.UsernameOrUserId (UpdateUserRequest.UserData x))
         (Some (string_of_list_byte d))
     | inr err =>
       ended (run_do (set_request (ReqUpdateUser (Some x)) r) "User"
                [Z.lor CC_PARAM_TYPE_BODY CC_PARAM_TYPE_PATH])
       = Return (Some err)
     end.
Proof.
  set (r' := set_request (ReqUpdateUser (Some x)) r).
  set (pt := [Z.lor CC_PARAM_TYPE_BODY CC_PARAM_TYPE_PATH]).
  destruct (shape "User" pt (prepared r' "User")) as [sr m] eqn:Hs.
  pose proof (run_do_fields _ _ _ _ _ Hs) as (_ & _ & _ & Hreq & _).
  pose proof (issues_of_shape r' "User" pt) as Hi.
  pose proof (run_do_shape_exit r' "User" pt) as He.
  rewrite Hs in Hi, He. rewrite Hreq. clear Hreq.
  unfold shape, marshal_request, the_UpdateUserRequest, bind, get, modify,
    emit, ret, return_ in Hs.
  cbn in Hs. fold (cleared x) in Hs.
  destruct (json_Marshal (ReqUpdateUser (Some (cleared x)))) as [ d | err ];
    inversion Hs; subst sr m; split; try reflexivity.
  - exact (Hi _ _ eq_refl).
  - rewrite (He _ _ eq_refl). reflexivity.
Qed.

(** X9.  Apart from that arm ("User" with BODY|PATH), [do] never changes the
    request object: after the call it is what the caller stored. *)
Theorem request_left_alone {R : Runtime} r a pt :
  a <> "User"
  \/ hd_error pt <> Some (Z.lor CC_PARAM_TYPE_BODY CC_PARAM_TYPE_PATH) ->
  request (receiver (run_do r a pt)) = request r.
Proof.
  intros Hother.
  destruct (shape a pt (prepared r a)) as [sr m] eqn:Hs.
  destruct (run_do_fields _ _ _ _ _ Hs) as (_ & _ & _ & Hreq & _).
  destruct (shape_facts _ _ _ _ _ Hs) as (_ & _ & _ & [H | (x & _ & Ha & Hp & _)]).
  - congruence.
  - destruct Hother; contradiction.
Qed.

Lemma request_left_alone_witness :
  request (receiver (run_do (R := serving (response 200 2 ok_body))
                       (set_request (ReqRevoke (Some revoke123)) profile_request)
                       "Revoke"
                       [Z.lor CC_PARAM_TYPE_BODY CC_PARAM_TYPE_PATH]))
  = ReqRevoke (Some revoke123).
Proof.
  apply (request_left_alone (R := serving (response 200 2 ok_body))
           (set_request (ReqRevoke (Some revoke123)) profile_request) "Revoke"
           [Z.lor CC_PARAM_TYPE_BODY CC_PARAM_TYPE_PATH]).
  left. discriminate.
Defined.

(** X10.  Every HTTP request [do] builds has method GET, POST, PUT or
    DELETE and a URL that starts with
    https://api.certcenter.com/rest/v1/, whatever the operation name, the
    flags and the request object. *)
Theorem only_known_methods_and_host {R : Runtime} r a pt meth u b :
  built (calls (run_do r a pt)) = Some (meth, u, b) ->
  In meth ["GET"; "POST"; "PUT"; "DELETE"]
  /\ prefix "https://api.certcenter.com/rest/v1/" u = true.
Proof.
  intros Hb. destruct (built_inv _ _ _ _ _ _ Hb) as (m & Hs & <- & <-).
  destruct (shape_facts _ _ _ _ _ Hs) as (Hm & Hu & _). auto.
Qed.

Lemma only_known_methods_and_host_witness :
  In "DELETE" ["GET"; "POST"; "PUT"; "DELETE"]
  /\ prefix "https://api.certcenter.com/rest/v1/"
       "https://api.certcenter.com/rest/v1/Revoke/123" = true.
Proof.
  apply (only_known_methods_and_host (R := serving (response 200 2 ok_body))
           (set_request (ReqRevoke (Some revoke123)) profile_request) "Revoke"
           [Z.lor CC_PARAM_TYPE_BODY CC_PARAM_TYPE_PATH]
           "DELETE" "https://api.certcenter.com/rest/v1/Revoke/123"
           (Some "{}")).
  reflexivity.
Defined.

(** X11.  When [http.NewRequest] rejects the request that was shaped, [do]
    returns its error, nothing is sent, and the result object stays as it
    was. *)
Theorem rejected_request_is_not_sent {R : Runtime} r a pt meth u b err :
  built (calls (run_do r a pt)) = Some (meth, u, b) ->
  http_NewRequest meth u b = Some err ->
  ended (run_do r a pt) = Return (Some err)
  /\ sent (calls (run_do r a pt)) = None
  /\ result (receiver (run_do r a pt)) = result r.
Proof.
  intros Hb Hrej. destruct (built_inv _ _ _ _ _ _ Hb) as (m & Hs & <- & <-).
  destruct (shape_prepared _ _ _ _ _ Hs) as (Hc & Hr & Hl).
  rewrite (run_do_shape_ok _ _ _ _ _ Hs), (transact_eq _ _ Hc). cbv zeta.
  rewrite Hrej. cbn. rewrite (sent_shaping _ _ Hl). auto.
Qed.

Lemma rejected_request_is_not_sent_witness :
  ended (run_do (R := rejecting (response 200 2 ok_body))
           profile_request "Profile" [])
  = Return (Some "net/http: invalid request")
  /\ sent (calls (run_do (R := rejecting (response 200 2 ok_body))
                    profile_request "Profile" [])) = None
  /\ result (receiver (run_do (R := rejecting (response 200 2 ok_body))
                         profile_request "Profile" []))
     = result profile_request.
Proof.
  apply (rejected_request_is_not_sent (R := rejecting (response 200 2 ok_body))
           profile_request "Profile" []
           "GET" "https://api.certcenter.com/rest/v1/Profile" None).
  - reflexivity.
  - reflexivity.
Defined.

(** X12.  Every request [do] sends is the one it built, accepted by
    [http.NewRequest], and carries exactly two headers: [Authorization] with
    [Bearer] and the package's token, and [Content-Type]
    [application/json; charset=utf8]. *)
Theorem sent_request_is_the_built_one {R : Runtime} r a pt rq :
  sent (calls (run_do r a pt)) = Some rq ->
  built (calls (run_do r a pt))
  = Some (http_Request.Method rq, http_Request.URL rq, http_Request.Body rq)
  /\ http_NewRequest (http_Request.Method rq) (http_Request.URL rq)
       (http_Request.Body rq) = None
  /\ http_Request.Header rq
     = [("Authorization", "Bearer " ++ Bearer);
        ("Content-Type", "application/json; charset=utf8")].
Proof.
  intros Hsent.
  destruct (shape a pt (prepared r a)) as [[postData | e] m] eqn:Hs;
    destruct (shape_prepared _ _ _ _ _ Hs) as (Hc & _ & Hl).
  2:{ rewrite (run_do_shape_exit _ _ _ _ _ Hs) in Hsent. cbn in Hsent.
      rewrite (sent_shaping_only _ Hl) in Hsent. discriminate. }
  destruct (issues_of_shape _ _ _ _ _ Hs) as [Hb Hi].
  destruct (http_NewRequest (httpMethod (req m)) (url (req m)) postData)
    as [ err | ] eqn:Hnew.
  - destruct (rejected_request_is_not_sent _ _ _ _ _ _ _ Hb Hnew)
      as (_ & Hnone & _).
    congruence.
  - rewrite (Hi eq_refl) in Hsent. inversion Hsent. subst rq. cbn. auto.
Qed.

Lemma sent_request_is_the_built_one_witness :
  built (calls (run_do (R := serving (response 200 2 ok_body))
                  profile_request "Profile" []))
  = Some ("GET", "https://api.certcenter.com/rest/v1/Profile", None)
  /\ http_NewRequest (Runtime := serving (response 200 2 ok_body))
       "GET" "https://api.certcenter.com/rest/v1/Profile" None = None
  /\ headers (R := serving (response 200 2 ok_body))
     = [("Authorization", "Bearer token");
        ("Content-Type", "application/json; charset=utf8")].
Proof.
  apply (sent_request_is_the_built_one (R := serving (response 200 2 ok_body))
           profile_request "Profile" []
           {| http_Request.Method := "GET";
              http_Request.URL := "https://api.certcenter.com/rest/v1/Profile";
              http_Request.Body := None;
              http_Request.Header :=
                [("Authorization", "Bearer token");
                 ("Content-Type", "application/json; charset=utf8")] |}).
  reflexivity.
Defined.

Lemma close_app l l' :
  existsb is_close (l ++ l') = existsb is_close l || existsb is_close l'.
Proof. apply existsb_app. Qed.

Lemma close_shaping_only l :
  forallb shaping l = true -> existsb is_close l = false.
Proof.
  intros H. rewrite <- (app_nil_r l). now rewrite close_shaping.
Qed.

Section ResponsePhase.
Context {R : Runtime}.

(** A run without response leaves the result object alone, decodes nothing
    and closes nothing; a run with a response is [receive] applied to it,
    entered with the result object untouched, nothing decoded and nothing
    closed. *)
Lemma run_do_phases r a pt :
  (received (calls (run_do r a pt)) = None
   /\ result (receiver (run_do r a pt)) = result r
   /\ decoding_attempted (calls (run_do r a pt)) = false
   /\ existsb is_close (calls (run_do r a pt)) = false)
  \/ exists response m,
       received (calls (run_do r a pt)) = Some response
       /\ run_do r a pt = out_of (receive response m)
       /\ result (req m) = result r
       /\ decoding_attempted (log m) = false
       /\ existsb is_close (log m) = false
       /\ received (log m) = Some response.
Proof.
  destruct (shape a pt (prepared r a)) as [[postData | e] m] eqn:Hs;
    destruct (shape_prepared _ _ _ _ _ Hs) as (Hc & Hr & Hl).
  2:{ left. rewrite (run_do_shape_exit _ _ _ _ _ Hs). unfold received.
      cbn [calls receiver].
      rewrite (sent_shaping_only _ Hl), (attempted_shaping_only _ Hl),
        (close_shaping_only _ Hl). auto. }
  rewrite (run_do_shape_ok _ _ _ _ _ Hs), (transact_eq _ _ Hc). cbv zeta.
  destruct (http_NewRequest _ _ _).
  { left. unfold received. cbn [out_of calls receiver req log add_call].
    rewrite (sent_shaping _ _ Hl), (attempted_shaping _ _ Hl),
      (close_shaping _ _ Hl). cbn. auto. }
  set (rq := {| http_Request.Method := httpMethod (req m) |}).
  set (m2 := add_call (CallClientDo rq)
               (add_call (CallNewRequest (httpMethod (req m)) (url (req m))
                            postData) m)).
  assert (Hsent : sent (log m2) = Some rq).
  { cbn. rewrite <- app_assoc. now rewrite (sent_shaping _ _ Hl). }
  assert (Hatt : decoding_attempted (log m2) = false).
  { cbn [m2 log add_call]. rewrite <- app_assoc.
    now rewrite (attempted_shaping _ _ Hl). }
  assert (Hclose : existsb is_close (log m2) = false).
  { cbn [m2 log add_call]. rewrite <- app_assoc.
    now rewrite (close_shaping _ _ Hl). }
  destruct (fst (client_Do the_client rq)) as [ response | ] eqn:Hdo.
  - right. exists response, m2.
    assert (Hrec : received (log m2) = Some response).
    { unfold received. now rewrite Hsent. }
    repeat split; auto.
    unfold received. rewrite calls_out_of.
    destruct (receive_extends response m2) as [l' Hl'].
    rewrite Hl', (sent_app_some _ _ _ Hsent). exact Hdo.
  - left. unfold received. cbn [out_of calls receiver].
    rewrite Hsent, Hdo, Hatt, Hclose. auto.
Qed.

Lemma received_app l l' response :
  received l = Some response -> received (l ++ l') = Some response.
Proof.
  unfold received. destruct (sent l) as [ rq | ] eqn:Hs; [ | discriminate ].
  now rewrite (sent_app_some _ _ _ Hs).
Qed.

End ResponsePhase.

(** X13.  A response body is closed exactly once, as the last thing [do]
    does, on every way out; and when no response was received, nothing is
    closed. *)
Theorem body_closed_once_and_last {R : Runtime} r a pt :
  match received (calls (run_do r a pt)) with
  | Some _ =>
    exists l, calls (run_do r a pt) = (l ++ [CallBodyClose])%list
              /\ existsb is_close l = false
  | None => existsb is_close (calls (run_do r a pt)) = false
  end.
Proof.
  destruct (run_do_phases r a pt)
    as [(Hnone & _ & _ & Hc)
       | (response & m & Hrec & Hrun & _ & _ & Hc & _)].
  - now rewrite Hnone.
  - rewrite Hrec, Hrun, receive_eq.
    destruct (_ || _); [ cbn; eauto | ].
    destruct (http_Body.read_error _).
    + cbn. eexists. split; [ reflexivity | ].
      rewrite close_app, Hc. reflexivity.
    + rewrite decode_eq. cbv zeta.
      destruct (_ || _); [ | destruct (_ =? 401)%Z ]; cbn;
        (eexists; split; [ reflexivity | ]);
        rewrite ?close_app, Hc; reflexivity.
Qed.

(** X14.  The result object after a call is the one stored before it, unless
    [json.Unmarshal] was called: then it is what [json.Unmarshal] left in
    it when given the body of the response. *)
Theorem result_changed_only_by_decoding {R : Runtime} r a pt :
  result (receiver (run_do r a pt))
  = if decoding_attempted (calls (run_do r a pt)) then
      match received (calls (run_do r a pt)) with
      | Some response =>
        json_Unmarshal_into
          (http_Body.content (http_Response.Body response)) (result r)
      | None => result r
      end
    else result r.
Proof.
  destruct (run_do_phases r a pt)
    as [(Hnone & Hres & Hatt & _)
       | (response & m & Hrec & Hrun & Hres & Hatt & _ & _)].
  - now rewrite Hatt.
  - rewrite Hrec, Hrun, receive_eq.
    destruct (_ || _); [ cbn; now rewrite attempted_app, Hatt | ].
    destruct (http_Body.read_error _).
    + cbn. now rewrite !attempted_app, Hatt.
    + rewrite decode_eq. cbv zeta.
      destruct (_ || _); [ | destruct (_ =? 401)%Z ]; cbn;
        rewrite !attempted_app, Hatt; cbn; rewrite ?orb_true_r;
        now rewrite ?Hres.
Qed.

(** X15.  A response with any status other than 200, 401, 406 and 417,
    whose declared length passes the check and whose body is read without
    error, makes [do] return the status error that names the code, without
    decoding the body. *)
Theorem other_status_is_status_error {R : Runtime} r a pt resp :
  received (calls (run_do r a pt)) = Some resp ->
  ~ In (http_Response.StatusCode resp) [200; 401; 406; 417] ->
  http_Response.ContentLength resp <= 2 ^ 24 ->
  http_Response.ContentLength resp <> 0 ->
  http_Body.read_error (http_Response.Body resp) = None ->
  ended (run_do r a pt)
  = Return (Some ("CertCenter API: Returned with Status "
                    ++ fmt_d (http_Response.StatusCode resp)))
  /\ decoding_attempted (calls (run_do r a pt)) = false.
Proof.
  intros Hrec Hcode Hmax Hnz Hread.
  destruct (run_do_phases r a pt)
    as [(Hnone & _) | (response & m & Hrec' & Hrun & Hres & Hatt & _ & _)];
    [ congruence | ].
  assert (response = resp) by congruence. subst response.
  rewrite Hrun, receive_eq.
  replace (_ || _) with false.
  2:{ symmetry. apply orb_false_iff. split.
      - rewrite Z.gtb_ltb. apply Z.ltb_ge. exact Hmax.
      - now apply Z.eqb_neq. }
  rewrite Hread, decode_eq. cbv zeta.
  cbn [In] in Hcode.
  destruct (Z.eqb_spec (http_Response.StatusCode resp) 200);
    [ exfalso; apply Hcode; intuition congruence | ].
  destruct (Z.eqb_spec (http_Response.StatusCode resp) 417);
    [ exfalso; apply Hcode; intuition congruence | ].
  destruct (Z.eqb_spec (http_Response.StatusCode resp) 406);
    [ exfalso; apply Hcode; intuition congruence | ].
  destruct (Z.eqb_spec (http_Response.StatusCode resp) 401);
    [ exfalso; apply Hcode; intuition congruence | ].
  cbn. rewrite !attempted_app, Hatt. auto.
Qed.

Lemma other_status_is_status_error_witness :
  ended (run_do (R := serving (response 500 2 ok_body))
           profile_request "Profile" [])
  = Return (Some "CertCenter API: Returned with Status 500")
  /\ decoding_attempted
       (calls (run_do (R := serving (response 500 2 ok_body))
                 profile_request "Profile" [])) = false.
Proof.
  apply (other_status_is_status_error (R := serving (response 500 2 ok_body))
           profile_request "Profile" [] (response 500 2 ok_body)).
  - reflexivity.
  - cbn. lia.
  - cbn. lia.
  - cbn. lia.
  - reflexivity.
Defined.

(** X16.  The status error tells the codes apart: two codes with the same
    error message are the same code. *)
Theorem status_error_carries_code (c c' : Z) :
  status_error c = status_error c' -> c = c'.
Proof.
  unfold status_error. intros H. apply fmt_d_injective.
  cbn in H. now inversion H.
Qed.

Lemma status_error_carries_code_witness : 404 = 404.
Proof. apply (status_error_carries_code 404 404). reflexivity. Defined.

(** X17.  A 200 response whose declared length passes the check and whose
    body is read without error is decoded: [do] returns what
    [json.Unmarshal] returns for the body and the result object, the result
    object is what [json.Unmarshal] left in it, and the status code is
    recorded. *)
Theorem status_200_is_decoded {R : Runtime} r a pt resp :
  received (calls (run_do r a pt)) = Some resp ->
  http_Response.StatusCode resp = 200 ->
  http_Response.ContentLength resp <= 2 ^ 24 ->
  http_Response.ContentLength resp <> 0 ->
  http_Body.read_error (http_Response.Body resp) = None ->
  ended (run_do r a pt)
  = Return (json_Unmarshal (http_Body.content (http_Response.Body resp))
              (result r))
  /\ result (receiver (run_do r a pt))
     = json_Unmarshal_into (http_Body.content (http_Response.Body resp))
         (result r)
  /\ statusCode (receiver (run_do r a pt)) = 200.
Proof.
  intros Hrec Hcode Hmax Hnz Hread.
  destruct (run_do_phases r a pt)
    as [(Hnone & _) | (response & m & Hrec' & Hrun & Hres & Hatt & _ & _)];
    [ congruence | ].
  assert (response = resp) by congruence. subst response.
  rewrite Hrun, receive_eq.
  replace (_ || _) with false.
  2:{ symmetry. apply orb_false_iff. split.
      - rewrite Z.gtb_ltb. apply Z.ltb_ge. exact Hmax.
      - now apply Z.eqb_neq. }
  rewrite Hread, decode_eq. cbv zeta. rewrite Hcode. cbn.
  rewrite Hres. auto.
Qed.

Lemma status_200_is_decoded_witness :
  ended (run_do (R := serving (response 200 2 ok_body))
           profile_request "Profile" [])
  = Return None
  /\ result (receiver (run_do (R := serving (response 200 2 ok_body))
                         profile_request "Profile" []))
     = {| rtype := Some ProfileResult; filled_from := Some ok_body |}
  /\ statusCode (receiver (run_do (R := serving (response 200 2 ok_body))
                             profile_request "Profile" [])) = 200.
Proof.
  apply (status_200_is_decoded (R := serving (response 200 2 ok_body))
           profile_request "Profile" [] (response 200 2 ok_body)).
  - reflexivity.
  - reflexivity.
  - cbn. lia.
  - cbn. lia.
  - reflexivity.
Defined.

(** X18.  When reading the body fails, [do] returns the read error as it
    is, whatever the status; the body is not decoded, the result object
    stays as it was and the status code is not recorded. *)
Theorem read_error_is_returned {R : Runtime} r a pt resp err :
  received (calls (run_do r a pt)) = Some resp ->
  http_Response.ContentLength resp <= 2 ^ 24 ->
  http_Response.ContentLength resp <> 0 ->
  http_Body.read_error (http_Response.Body resp) = Some err ->
  ended (run_do r a pt) = Return (Some err)
  /\ decoding_attempted (calls (run_do r a pt)) = false
  /\ result (receiver (run_do r a pt)) = result r
  /\ statusCode (receiver (run_do r a pt)) = statusCode r.
Proof.
  intros Hrec Hmax Hnz Hread.
  destruct (shape a pt (prepared r a)) as [sr m0] eqn:Hs.
  assert (Hstatus : statusCode (req m0) = statusCode r).
  { clear Hrec. destruct pt as [ | p rest ].
    - cbn in Hs. inversion Hs. reflexivity.
    - revert sr m0 Hs. shape_cases r a p;
        intros sr m0 Hs; inversion Hs; reflexivity. }
  destruct (shape_prepared _ _ _ _ _ Hs) as (Hc & Hr & Hl).
  destruct sr as [ postData | e ].
  2:{ rewrite (run_do_shape_exit _ _ _ _ _ Hs) in Hrec. unfold received in Hrec.
      cbn in Hrec. rewrite (sent_shaping_only _ Hl) in Hrec. discriminate. }
  revert Hrec.
  rewrite (run_do_shape_ok _ _ _ _ _ Hs), (transact_eq _ _ Hc). cbv zeta.
  destruct (http_NewRequest _ _ _).
  { unfold received. cbn. rewrite (sent_shaping _ _ Hl). discriminate. }
  set (rq := {| http_Request.Method := httpMethod (req m0) |}).
  set (m2 := add_call (CallClientDo rq)
               (add_call (CallNewRequest (httpMethod (req m0)) (url (req m0))
                            postData) m0)).
  assert (Hsent : sent (log m2) = Some rq).
  { cbn. rewrite <- app_assoc. now rewrite (sent_shaping _ _ Hl). }
  destruct (fst (client_Do the_client rq)) as [ response | ] eqn:Hdo.
  2:{ unfold received. cbn [out_of calls]. rewrite Hsent, Hdo. discriminate. }
  intros Hrec.
  assert (response = resp).
  { unfold received in Hrec. rewrite calls_out_of in Hrec.
    destruct (receive_extends response m2) as [l' Hl'].
    rewrite Hl', (sent_app_some _ _ _ Hsent), Hdo in Hrec. congruence. }
  subst response. rewrite receive_eq.
  replace (_ || _) with false.
  2:{ symmetry. apply orb_false_iff. split.
      - rewrite Z.gtb_ltb. apply Z.ltb_ge. exact Hmax.
      - now apply Z.eqb_neq. }
  rewrite Hread. cbn. rewrite <- !app_assoc.
  rewrite (attempted_shaping _ _ Hl). cbn. auto.
Qed.

Lemma read_error_is_returned_witness :
  ended (run_do (R := serving (broken_response 200 9 ok_body "unexpected EOF"))
           profile_request "Profile" [])
  = Return (Some "unexpected EOF").
Proof.
  apply (read_error_is_returned
           (R := serving (broken_response 200 9 ok_body "unexpected EOF"))
           profile_request "Profile" []
           (broken_response 200 9 ok_body "unexpected EOF") "unexpected EOF").
  - reflexivity.
  - cbn. lia.
  - cbn. lia.
  - reflexivity.
Defined.

(** X19.  The operation functions that put a field of the request in the
    path do not check their argument: called with a nil request,
    [ResendApproverEmail], [DeleteOrder], [PutApproverEmail] and [Revoke]
    panic on the dereference before any HTTP request is built; [GetOrder]
    first hands the nil pointer to package query and returns its error if
    it fails, and panics otherwise. *)
Theorem nil_request_panics {R : Runtime} :
  (ended (ResendApproverEmail None) = Panic NilDereference
   /\ built (calls (ResendApproverEmail None)) = None)
  /\ (ended (DeleteOrder None) = Panic NilDereference
      /\ built (calls (DeleteOrder None)) = None)
  /\ (ended (PutApproverEmail None) = Panic NilDereference
      /\ built (calls (PutApproverEmail None)) = None)
  /\ (ended (Revoke None) = Panic NilDereference
      /\ built (calls (Revoke None)) = None)
  /\ (ended (GetOrder None)
      = match query_Values (ReqGetOrder None) with
        | inl _ => Panic NilDereference
        | inr err => Return (Some err)
        end
      /\ built (calls (GetOrder None)) = None).
Proof.
  assert (Hb : built (calls (GetOrder None)) = None).
  { unfold GetOrder. rewrite built_call.
    set (r := set_request (ReqGetOrder None) _).
    set (pt := [Z.lor CC_PARAM_TYPE_QS CC_PARAM_TYPE_PATH]).
    destruct (shape "Order" pt (prepared r "Order")) as [sr m] eqn:Hs.
    pose proof (run_do_shape_exit r "Order" pt) as He. rewrite Hs in He.
    unfold shape, values_of_request, the_GetOrderRequest, bind, get, modify,
      emit, ret, return_, panic_ in Hs.
    cbn in Hs.
    destruct (query_Values (ReqGetOrder None)); inversion Hs; subst sr m;
      rewrite (He _ _ eq_refl); reflexivity. }
  repeat split; try exact Hb.
  unfold GetOrder in *. rewrite built_call in Hb.
  rewrite (ended_call_unbuilt _ _ _ _ Hb).
  set (r := set_request (ReqGetOrder None) _).
  set (pt := [Z.lor CC_PARAM_TYPE_QS CC_PARAM_TYPE_PATH]).
  destruct (shape "Order" pt (prepared r "Order")) as [sr m] eqn:Hs.
  pose proof (run_do_shape_exit r "Order" pt) as He. rewrite Hs in He.
  unfold shape, values_of_request, the_GetOrderRequest, bind, get, modify,
    emit, ret, return_, panic_ in Hs.
  cbn in Hs.
  destruct (query_Values (ReqGetOrder None)); inversion Hs; subst sr m;
    rewrite (He _ _ eq_refl); reflexivity.
Qed.

(** X20.  "DeleteUser" with the PATH flag writes the user name to standard
    output before the request is built: the first call of the run is
    [fmt.Println] of [UsernameOrUserId]. *)
Theorem DeleteUser_prints_the_user {R : Runtime} r (x : DeleteUserRequest.t) :
  hd_error (calls (run_do (set_request (ReqDeleteUser (Some x)) r)
                     "DeleteUser" [CC_PARAM_TYPE_PATH]))
  = Some (CallPrintln (DeleteUserRequest.UsernameOrUserId x)).
Proof.
  set (r' := set_request (ReqDeleteUser (Some x)) r).
  destruct (shape "DeleteUser" [CC_PARAM_TYPE_PATH] (prepared r' "DeleteUser"))
    as [sr m] eqn:Hs.
  destruct (calls_of_shape _ _ _ _ _ Hs) as [rest Hrest]. rewrite Hrest.
  unfold shape, the_DeleteUserRequest, bind, get, modify, emit, ret in Hs.
  cbn in Hs. inversion Hs. reflexivity.
Qed.

(** X21.  The error that [client.Do] returns has no influence on a call:
    with the same responses and every round-trip error replaced by nil, [do]
    ends the same way, leaves the same receiver and makes the same calls. *)
Theorem transport_error_is_ignored {R : Runtime} r a pt :
  run_do (R := silenced R) r a pt = run_do (R := R) r a pt.
Proof. reflexivity. Qed.

(** X22.  When [json.Unmarshal] accepts the body and leaves the nil
    interface in the result (as it does for the JSON value null), [do]
    reports success for a 200, 406 or 417 response, and the operation
    function then panics on the type assertion of its return statement. *)
Theorem null_result_breaks_the_operation {R : Runtime} res rq a pt resp :
  received (calls (run_do (set_request rq (set_result (new res) new_apiRequest))
                     a pt)) = Some resp ->
  In (http_Response.StatusCode resp) [200; 406; 417] ->
  http_Response.ContentLength resp <= 2 ^ 24 ->
  http_Response.ContentLength resp <> 0 ->
  http_Body.read_error (http_Response.Body resp) = None ->
  json_Unmarshal (http_Body.content (http_Response.Body resp)) (new res)
  = None ->
  rtype (json_Unmarshal_into (http_Body.content (http_Response.Body resp))
           (new res)) = None ->
  ended (run_do (set_request rq (set_result (new res) new_apiRequest)) a pt)
  = Return None
  /\ ended (call res rq a pt) = Panic TypeAssertion.
Proof.
  intros Hrec Hcode Hmax Hnz Hread Hok Hnil.
  set (r := set_request rq (set_result (new res) new_apiRequest)) in *.
  assert (He : ended (run_do r a pt) = Return None
               /\ result (receiver (run_do r a pt))
                  = json_Unmarshal_into
                      (http_Body.content (http_Response.Body resp)) (new res)).
  { destruct (run_do_phases r a pt)
      as [(Hnone & _) | (response & m & Hrec' & Hrun & Hres & _)];
      [ congruence | ].
    assert (response = resp) by congruence. subst response.
    rewrite Hrun, receive_eq.
    replace (_ || _) with false.
    2:{ symmetry. apply orb_false_iff. split.
        - rewrite Z.gtb_ltb. apply Z.ltb_ge. exact Hmax.
        - now apply Z.eqb_neq. }
    rewrite Hread, decode_eq. cbv zeta.
    replace (_ || _) with true.
    2:{ cbn [In] in Hcode.
        destruct Hcode as [H | [H | [H | []]]]; rewrite <- H; reflexivity. }
    cbn. rewrite Hres. cbn. now rewrite Hok. }
  destruct He as [He Hr]. split; [ exact He | ].
  unfold call. fold r. rewrite He. cbn [ended].
  unfold points_to. now rewrite Hr, Hnil.
Qed.

Lemma null_result_breaks_the_operation_witness :
  ended (run_do (R := serving (response 200 4 null_body))
           (set_request ReqNil (set_result (new ProfileResult) new_apiRequest))
           "Profile" [])
  = Return None
  /\ ended (Profile (R := serving (response 200 4 null_body)))
     = Panic TypeAssertion.
Proof.
  apply (null_result_breaks_the_operation
           (R := serving (response 200 4 null_body))
           ProfileResult ReqNil "Profile" [] (response 200 4 null_body)).
  - reflexivity.
  - cbn. auto.
  - cbn. lia.
  - cbn. lia.
  - reflexivity.
  - reflexivity.
  - reflexivity.
Defined.
